(** * guilded-stats: the client bootstrap and request layer

    A shallow embedding of the [API] class of the stats tracker (the
    desktop-shell variant, [backend/api.ts], and the standalone-process
    variant that runs under Bun) together with the HTTP shim
    [backend/fetch.ts].

    Strings are sequences of 8-bit code units.  The static fields of the
    class form a record that is threaded through a small state-and-exception
    monad; the file system, the HTTP transport and the WebSocket plugin are
    a read-only environment, and every call into them is recorded in a
    trace. *)

From Stdlib Require Import ZArith List String Ascii Bool Lia DecimalString.
Import ListNotations.
Local Open Scope string_scope.
Local Open Scope Z_scope.

Set Implicit Arguments.
Set Warnings "-register-all".

(** ** ECMAScript strings *)

Module Js.

Definition code (c : ascii) : Z := Z.of_N (N_of_ascii c).
Definition chr (z : Z) : ascii := ascii_of_N (Z.to_N z).

Definition str1 (c : ascii) : string := String c EmptyString.

Fixpoint join (sep : string) (l : list string) : string :=
  match l with
  | [] => EmptyString
  | [x] => x
  | x :: r => x ++ sep ++ join sep r
  end.

(** [s.split(sep)] for a one-character separator: never empty, one more
    piece than there are separators. *)
Fixpoint split (sep : ascii) (s : string) : list string :=
  match s with
  | EmptyString => [EmptyString]
  | String c r =>
      if Ascii.eqb c sep then EmptyString :: split sep r
      else match split sep r with
           | h :: t => String c h :: t
           | [] => [str1 c]
           end
  end.

(** Array destructuring [[a, b, ...] = arr]: position [i], or [undefined]
    (here [None]) past the end. *)
Definition item (l : list string) (i : nat) : option string := nth_error l i.

(** A template literal hole holding a string or [undefined]. *)
Definition show (o : option string) : string :=
  match o with
  | Some s => s
  | None => "undefined"
  end.

(** Truthiness of a string-or-undefined: only non-empty strings are truthy. *)
Definition truthy (o : option string) : bool :=
  match o with
  | Some (String _ _) => true
  | _ => false
  end.

(** *** Numbers

    A Number value is kept exact where it is an integer the model computes
    (magnitude at most 2^53, where doubles are exact).  Every other
    numeric literal (a fraction, an exponent, [Infinity], a larger
    magnitude) is carried as [Dbl lit], the double denoted by [lit], which
    the model does not evaluate. *)
Inductive number : Type :=
| NaN
| Int (z : Z)
| Dbl (lit : string).

Definition is_digit (c : ascii) : bool := (48 <=? code c) && (code c <=? 57).

Definition digit_val (c : ascii) : Z :=
  let n := code c in
  if (48 <=? n) && (n <=? 57) then n - 48
  else if (97 <=? n) && (n <=? 102) then n - 87
  else if (65 <=? n) && (n <=? 70) then n - 55
  else 99.

Definition is_digit_in (base : Z) (c : ascii) : bool := digit_val c <? base.

Fixpoint all_chars (p : ascii -> bool) (s : string) : bool :=
  match s with
  | EmptyString => true
  | String c r => p c && all_chars p r
  end.

Fixpoint digits_from (base acc : Z) (s : string) : Z :=
  match s with
  | EmptyString => acc
  | String c r => digits_from base (base * acc + digit_val c) r
  end.

Definition digits_value (base : Z) (s : string) : Z := digits_from base 0 s.

(** StrWhiteSpaceChar, as far as 8-bit code units go: TAB, LF, VT, FF, CR,
    SP and NBSP. *)
Definition is_space (c : ascii) : bool :=
  let n := code c in
  ((9 <=? n) && (n <=? 13)) || (n =? 32) || (n =? 160).

Definition is_blank (s : string) : bool := all_chars is_space s.

Fixpoint trim_start (s : string) : string :=
  match s with
  | String c r => if is_space c then trim_start r else s
  | EmptyString => EmptyString
  end.

Fixpoint trim_end (s : string) : string :=
  match s with
  | EmptyString => EmptyString
  | String c r => if is_blank s then EmptyString else String c (trim_end r)
  end.

Definition trim (s : string) : string := trim_end (trim_start s).

(** The longest prefix of characters satisfying [p], and what follows. *)
Fixpoint span (p : ascii -> bool) (s : string) : string * string :=
  match s with
  | String c r =>
      if p c then let (a, b) := span p r in (String c a, b)
      else (EmptyString, s)
  | EmptyString => (EmptyString, EmptyString)
  end.

Definition nonempty (s : string) : bool :=
  match s with
  | EmptyString => false
  | String _ _ => true
  end.

Definition safe_bound : Z := 2 ^ 53.

Definition exact (lit : string) (v : Z) : number :=
  if Z.abs v <=? safe_bound then Int v else Dbl lit.

(** ExponentPart: [e] or [E], an optional sign, at least one digit. *)
Definition is_exponent (s : string) : bool :=
  match s with
  | String c r =>
      if (code c =? 101) || (code c =? 69) then
        match r with
        | String d r' =>
            if (code d =? 43) || (code d =? 45)
            then nonempty r' && all_chars is_digit r'
            else all_chars is_digit r
        | EmptyString => false
        end
      else false
  | EmptyString => false
  end.

(** StrUnsignedDecimalLiteral without [Infinity]: [D+ . D* E?], [. D+ E?]
    or [D+ E?].  [sgn] is the sign already read and [lit] the whole
    literal. *)
Definition unsigned_decimal (lit : string) (sgn : Z) (s : string) : number :=
  let (ip, r) := span is_digit s in
  match r with
  | EmptyString => if nonempty ip then exact lit (sgn * digits_value 10 ip) else NaN
  | String c r1 =>
      if code c =? 46 then
        let (fp, r2) := span is_digit r1 in
        if nonempty ip || nonempty fp then
          match r2 with
          | EmptyString =>
              if nonempty fp then Dbl lit else exact lit (sgn * digits_value 10 ip)
          | _ => if is_exponent r2 then Dbl lit else NaN
          end
        else NaN
      else if nonempty ip && is_exponent r then Dbl lit else NaN
  end.

Definition decimal_literal (lit : string) (sgn : Z) (s : string) : number :=
  if String.eqb s "Infinity" then Dbl lit else unsigned_decimal lit sgn s.

Definition radix_literal (lit : string) (base : Z) (ds : string) : number :=
  if nonempty ds && all_chars (is_digit_in base) ds
  then exact lit (digits_value base ds) else NaN.

(** StringToNumber: what unary [+] does to a string. *)
Definition StringToNumber (s : string) : number :=
  let t := trim s in
  match t with
  | EmptyString => Int 0
  | String c r =>
      if code c =? 43 then decimal_literal t 1 r
      else if code c =? 45 then decimal_literal t (-1) r
      else if code c =? 48 then
        match r with
        | String x ds =>
            if (code x =? 120) || (code x =? 88) then radix_literal t 16 ds
            else if (code x =? 111) || (code x =? 79) then radix_literal t 8 ds
            else if (code x =? 98) || (code x =? 66) then radix_literal t 2 ds
            else decimal_literal t 1 t
        | EmptyString => decimal_literal t 1 t
        end
      else decimal_literal t 1 t
  end.

(** Unary [+] on a string-or-undefined. *)
Definition ToNumber (o : option string) : number :=
  match o with
  | Some s => StringToNumber s
  | None => NaN
  end.

Definition Z_toString (z : Z) : string := NilZero.string_of_int (Z.to_int z).

(** *** Values

    What [JSON.parse] can return, plus [undefined].  An object is the list
    of its properties in enumeration order. *)
Inductive value : Type :=
| VUndefined
| VNull
| VBool (b : bool)
| VNumber (n : number)
| VString (s : string)
| VArray (elems : list value)
| VObject (props : list (string * value)).

(** The two built-ins of the engine that the model takes as given:
    Number::toString on the doubles it does not evaluate, and [JSON.parse]
    ([None] when it throws). *)
Class Engine : Type := {
  double_toString : string -> string;
  JSON_parse : string -> option value
}.

Section WithEngine.
Context {engine : Engine}.

Definition number_toString (n : number) : string :=
  match n with
  | NaN => "NaN"
  | Int z => Z_toString z
  | Dbl lit => double_toString lit
  end.

(** ToString, as a template literal hole and [Array.prototype.join] apply
    it. *)
Fixpoint ToString (v : value) : string :=
  match v with
  | VUndefined => "undefined"
  | VNull => "null"
  | VBool true => "true"
  | VBool false => "false"
  | VNumber n => number_toString n
  | VString s => s
  | VArray l =>
      join ","
        (map (fun x => match x with
                       | VUndefined | VNull => EmptyString
                       | _ => ToString x
                       end) l)
  | VObject _ => "[object Object]"
  end.

(** [v == s] for a string [s] that is not a numeric literal, such as a
    product identifier: numbers, booleans, [null] and [undefined] never
    equal it, a string must be identical, an array or object is compared
    through its string form. *)
Definition loose_eq_string (v : value) (s : string) : bool :=
  match v with
  | VString t => String.eqb t s
  | VArray _ | VObject _ => String.eqb (ToString v) s
  | _ => false
  end.

End WithEngine.

Definition ToBoolean (v : value) : bool :=
  match v with
  | VUndefined | VNull => false
  | VBool b => b
  | VNumber NaN => false
  | VNumber (Int z) => negb (z =? 0)
  | VNumber (Dbl _) => true
  | VString s => nonempty s
  | VArray _ | VObject _ => true
  end.

Fixpoint lookup (k : string) (props : list (string * value)) : value :=
  match props with
  | [] => VUndefined
  | (k', v) :: r => if String.eqb k' k then v else lookup k r
  end.

(** [v.k] for a property name [k] that no prototype defines (every name
    the class reads is one): [None] is the TypeError on [undefined] and
    [null]. *)
Definition get (v : value) (k : string) : option value :=
  match v with
  | VUndefined | VNull => None
  | VObject props => Some (lookup k props)
  | _ => Some VUndefined
  end.

Fixpoint chars (s : string) : list value :=
  match s with
  | EmptyString => []
  | String c r => VString (str1 c) :: chars r
  end.

(** [Object.values(v)]; [None] is the TypeError on [undefined] and [null]. *)
Definition Object_values (v : value) : option (list value) :=
  match v with
  | VUndefined | VNull => None
  | VObject props => Some (map snd props)
  | VArray l => Some l
  | VString s => Some (chars s)
  | VBool _ | VNumber _ => Some []
  end.

(** *** [btoa] *)

Definition b64_alphabet : string :=
  "ABCDEFGHIJKLMNOPQRSTUVWXYZabcdefghijklmnopqrstuvwxyz0123456789+/".

Definition b64_digit (z : Z) : ascii :=
  match String.get (Z.to_nat z) b64_alphabet with
  | Some c => c
  | None => "="%char
  end.

Fixpoint btoa (s : string) : string :=
  match s with
  | EmptyString => EmptyString
  | String a EmptyString =>
      let x := code a in
      String (b64_digit (Z.shiftr x 2))
        (String (b64_digit (Z.shiftl (Z.land x 3) 4)) "==")
  | String a (String b EmptyString) =>
      let x := code a in
      let y := code b in
      String (b64_digit (Z.shiftr x 2))
        (String (b64_digit (Z.lor (Z.shiftl (Z.land x 3) 4) (Z.shiftr y 4)))
           (String (b64_digit (Z.shiftl (Z.land y 15) 2)) "="))
  | String a (String b (String c r)) =>
      let x := code a in
      let y := code b in
      let z := code c in
      String (b64_digit (Z.shiftr x 2))
        (String (b64_digit (Z.lor (Z.shiftl (Z.land x 3) 4) (Z.shiftr y 4)))
           (String (b64_digit (Z.lor (Z.shiftl (Z.land y 15) 2) (Z.shiftr z 6)))
              (String (b64_digit (Z.land z 63)) (btoa r))))
  end.

(** *** [URLSearchParams] *)

Definition hex_digit (z : Z) : ascii :=
  match String.get (Z.to_nat z) "0123456789ABCDEF" with
  | Some c => c
  | None => "0"%char
  end.

Definition percent (byte : Z) : string :=
  String "%" (String (hex_digit (Z.shiftr byte 4)) (str1 (hex_digit (Z.land byte 15)))).

(** The application/x-www-form-urlencoded byte serializer, applied to the
    UTF-8 encoding of one code unit. *)
Definition urlencode_char (c : ascii) : string :=
  let n := code c in
  if n =? 32 then "+"
  else if ((48 <=? n) && (n <=? 57)) || ((65 <=? n) && (n <=? 90))
          || ((97 <=? n) && (n <=? 122))
          || (n =? 42) || (n =? 45) || (n =? 46) || (n =? 95)
  then str1 c
  else if n <? 128 then percent n
  else percent (Z.lor 192 (Z.shiftr n 6)) ++ percent (Z.lor 128 (Z.land n 63)).

Fixpoint urlencode (s : string) : string :=
  match s with
  | EmptyString => EmptyString
  | String c r => urlencode_char c ++ urlencode r
  end.

(** A [URLSearchParams] object is its list of name/value pairs;
    [append] adds at the end. *)
Definition URLSearchParams : Type := list (string * string).

Definition params_append (p : URLSearchParams) (k v : string) : URLSearchParams :=
  (p ++ [(k, v)])%list.

Definition params_toString (p : URLSearchParams) : string :=
  join "&" (map (fun kv => urlencode (fst kv) ++ "=" ++ urlencode (snd kv)) p).

(** *** Regular expressions

    The fragment of the pattern syntax that the log-file pattern uses:
    literal characters, [.], and the capturing group [(.+?)]. *)
Inductive node : Type :=
| Char (c : ascii)
| Dot
| LazyDotPlus.

Fixpoint compile (src : string) : list node :=
  match src with
  | String "(" (String "." (String "+" (String "?" (String ")" r)))) =>
      LazyDotPlus :: compile r
  | String "." r => Dot :: compile r
  | String c r => Char c :: compile r
  | EmptyString => []
  end.

(** LineTerminator, as far as 8-bit code units go: LF and CR. *)
Definition is_line_terminator (c : ascii) : bool :=
  (code c =? 10) || (code c =? 13).

(** Backtracking match of [p] at the start of [s]: the captures so far
    grow to the right; the result also gives what is left of [s].  A lazy
    group tries the shortest run first and extends it by one character
    each time the rest of the pattern fails. *)
Fixpoint exec_at (p : list node) : string -> list string -> option (list string * string) :=
  match p with
  | [] => fun s caps => Some (caps, s)
  | Char c :: p' =>
      fun s caps =>
        match s with
        | String a r => if Ascii.eqb a c then exec_at p' r caps else None
        | EmptyString => None
        end
  | Dot :: p' =>
      fun s caps =>
        match s with
        | String a r => if is_line_terminator a then None else exec_at p' r caps
        | EmptyString => None
        end
  | LazyDotPlus :: p' =>
      fun s caps =>
        (fix extend (s : string) (acc : string) {struct s} :=
           match s with
           | EmptyString => None
           | String a r =>
               if is_line_terminator a then None
               else
                 let acc' := acc ++ str1 a in
                 match exec_at p' r (caps ++ [acc'])%list with
                 | Some res => Some res
                 | None => extend r acc'
                 end
           end) s EmptyString
  end.

(** The first [n] characters of [s]. *)
Definition take (n : nat) (s : string) : string := String.substring 0 n s.

(** [s.indexOf(sub)] and [s.includes(sub)]. *)
Fixpoint indexOf (sub s : string) : option nat :=
  if String.prefix sub s then Some 0%nat
  else match s with
       | EmptyString => None
       | String _ r => option_map S (indexOf sub r)
       end.

Definition includes (sub s : string) : bool :=
  match indexOf sub s with
  | Some _ => true
  | None => false
  end.

(** [s.match(pattern)] without the global flag: the leftmost position at
    which the pattern matches, as the array [[whole, group1, ...]]. *)
Fixpoint regex_match (p : list node) (s : string) : option (list string) :=
  match exec_at p s [] with
  | Some (caps, rest) =>
      Some (take (String.length s - String.length rest) s :: caps)
  | None =>
      match s with
      | EmptyString => None
      | String _ r => regex_match p r
      end
  end.

Definition string_match (s pattern : string) : option (list string) :=
  regex_match (compile pattern) s.

End Js.

Import Js.

(** ** The HTTP shim's types ([backend/fetch.ts]) *)

Definition Headers : Type := list (string * string).

(** [RequestOptions], as an object that is spread into another one: each
    property may be missing.  For [headers] the model also tells a missing
    property ([None]) from one that is present and holds [undefined]
    ([Some None]), because a spread copies the latter over a default. *)
Module RequestOptions.
Record t : Type := {
  method : option string;
  headers : option (option Headers);
  body : option string
}.
End RequestOptions.

(** The [request] payload handed to the [fetch] command of the shell. *)
Module Request.
Record t : Type := {
  url : string;
  headers : option Headers;
  method : string;
  body : option string
}.
End Request.

Module HttpResponse.
Record t : Type := {
  success : bool;
  status : Z;
  body : string;
  headers : Headers
}.
End HttpResponse.

(** ** The class state and the machine *)

Record APIInfo : Type := {
  username : option string;
  processId : number;
  port : number;
  password : option string;
  protocol : option string
}.

Inductive WebSocket : Type := Connection (id : nat).

(** The static fields of [API]; a field never assigned is [undefined]. *)
Record API : Type := {
  apiInfo : option APIInfo;
  region : option string;
  shard : option string;
  chatSession : value;
  entitlements : value;
  riotSessions : value;
  authToken : value;
  playerUuid : value;
  clientVersion : value;
  entitlementToken : value;
  socket : option WebSocket
}.

Definition API_initial : API :=
  {| apiInfo := None; region := None; shard := None;
     chatSession := VUndefined; entitlements := VUndefined;
     riotSessions := VUndefined; authToken := VUndefined;
     playerUuid := VUndefined; clientVersion := VUndefined;
     entitlementToken := VUndefined; socket := None |}.

Definition set_apiInfo (x : APIInfo) (a : API) : API :=
  {| apiInfo := Some x; region := region a; shard := shard a;
     chatSession := chatSession a; entitlements := entitlements a;
     riotSessions := riotSessions a; authToken := authToken a;
     playerUuid := playerUuid a; clientVersion := clientVersion a;
     entitlementToken := entitlementToken a; socket := socket a |}.

Definition set_region (x : option string) (a : API) : API :=
  {| apiInfo := apiInfo a; region := x; shard := shard a;
     chatSession := chatSession a; entitlements := entitlements a;
     riotSessions := riotSessions a; authToken := authToken a;
     playerUuid := playerUuid a; clientVersion := clientVersion a;
     entitlementToken := entitlementToken a; socket := socket a |}.

Definition set_shard (x : option string) (a : API) : API :=
  {| apiInfo := apiInfo a; region := region a; shard := x;
     chatSession := chatSession a; entitlements := entitlements a;
     riotSessions := riotSessions a; authToken := authToken a;
     playerUuid := playerUuid a; clientVersion := clientVersion a;
     entitlementToken := entitlementToken a; socket := socket a |}.

Definition set_chatSession (x : value) (a : API) : API :=
  {| apiInfo := apiInfo a; region := region a; shard := shard a;
     chatSession := x; entitlements := entitlements a;
     riotSessions := riotSessions a; authToken := authToken a;
     playerUuid := playerUuid a; clientVersion := clientVersion a;
     entitlementToken := entitlementToken a; socket := socket a |}.

Definition set_entitlements (x : value) (a : API) : API :=
  {| apiInfo := apiInfo a; region := region a; shard := shard a;
     chatSession := chatSession a; entitlements := x;
     riotSessions := riotSessions a; authToken := authToken a;
     playerUuid := playerUuid a; clientVersion := clientVersion a;
     entitlementToken := entitlementToken a; socket := socket a |}.

Definition set_riotSessions (x : value) (a : API) : API :=
  {| apiInfo := apiInfo a; region := region a; shard := shard a;
     chatSession := chatSession a; entitlements := entitlements a;
     riotSessions := x; authToken := authToken a;
     playerUuid := playerUuid a; clientVersion := clientVersion a;
     entitlementToken := entitlementToken a; socket := socket a |}.

Definition set_authToken (x : value) (a : API) : API :=
  {| apiInfo := apiInfo a; region := region a; shard := shard a;
     chatSession := chatSession a; entitlements := entitlements a;
     riotSessions := riotSessions a; authToken := x;
     playerUuid := playerUuid a; clientVersion := clientVersion a;
     entitlementToken := entitlementToken a; socket := socket a |}.

Definition set_playerUuid (x : value) (a : API) : API :=
  {| apiInfo := apiInfo a; region := region a; shard := shard a;
     chatSession := chatSession a; entitlements := entitlements a;
     riotSessions := riotSessions a; authToken := authToken a;
     playerUuid := x; clientVersion := clientVersion a;
     entitlementToken := entitlementToken a; socket := socket a |}.

Definition set_clientVersion (x : value) (a : API) : API :=
  {| apiInfo := apiInfo a; region := region a; shard := shard a;
     chatSession := chatSession a; entitlements := entitlements a;
     riotSessions := riotSessions a; authToken := authToken a;
     playerUuid := playerUuid a; clientVersion := x;
     entitlementToken := entitlementToken a; socket := socket a |}.

Definition set_entitlementToken (x : value) (a : API) : API :=
  {| apiInfo := apiInfo a; region := region a; shard := shard a;
     chatSession := chatSession a; entitlements := entitlements a;
     riotSessions := riotSessions a; authToken := authToken a;
     playerUuid := playerUuid a; clientVersion := clientVersion a;
     entitlementToken := x; socket := socket a |}.

Definition set_socket (x : WebSocket) (a : API) : API :=
  {| apiInfo := apiInfo a; region := region a; shard := shard a;
     chatSession := chatSession a; entitlements := entitlements a;
     riotSessions := riotSessions a; authToken := authToken a;
     playerUuid := playerUuid a; clientVersion := clientVersion a;
     entitlementToken := entitlementToken a; socket := Some x |}.

Inductive Level : Type := LInfo | LError.

(** Every call that leaves the class, in the order it is made. *)
Inductive Event : Type :=
| FsExists (path : string)
| FsRead (path : string)
| Log (level : Level) (message : string)
| Invoke (request : Request.t)
| WsConnect (url : string) (headers : Headers)
| Console (level : Level) (args : list value)
| NativeFetch (url : string) (init : RequestOptions.t)
| NativeJson.

Record Machine : Type := {
  api : API;
  trace : list Event
}.

Inductive Exn : Type :=
| Error (message : string)
| TypeError
| SyntaxError
| Rejected (by_call : string).

Inductive outcome (A : Type) : Type :=
| Return (a : A)
| Throw (e : Exn).
Arguments Return {A} a.
Arguments Throw {A} e.

(** An [async] method over an environment [W]: it reads the environment,
    changes the machine, and returns or throws.  What it changed before a
    throw stays changed. *)
Definition M (W A : Type) : Type := W -> Machine -> outcome A * Machine.

Section Monad.
Context {W : Type}.

Definition ret {A} (a : A) : M W A := fun _ m => (Return a, m).

Definition throw {A} (e : Exn) : M W A := fun _ m => (Throw e, m).

Definition bind {A B} (c : M W A) (k : A -> M W B) : M W B :=
  fun w m =>
    match c w m with
    | (Return a, m') => k a w m'
    | (Throw e, m') => (Throw e, m')
    end.

Definition try_catch {A} (c : M W A) (h : Exn -> M W A) : M W A :=
  fun w m =>
    match c w m with
    | (Return a, m') => (Return a, m')
    | (Throw e, m') => h e w m'
    end.

Definition ask : M W W := fun w m => (Return w, m).

Definition static : M W API := fun _ m => (Return (api m), m).

Definition assign (f : API -> API) : M W unit :=
  fun _ m => (Return tt, {| api := f (api m); trace := trace m |}).

Definition emit (e : Event) : M W unit :=
  fun _ m => (Return tt, {| api := api m; trace := (trace m ++ [e])%list |}).

Definition or_throw {A} (e : Exn) (o : option A) : M W A :=
  match o with
  | Some a => ret a
  | None => throw e
  end.

End Monad.

Declare Scope monad_scope.
Delimit Scope monad_scope with monad.
Notation "x <- c ;; k" := (bind c (fun x => k))
  (at level 61, c at next level, right associativity) : monad_scope.
Notation "c ;; k" := (bind c (fun _ => k))
  (at level 61, right associativity) : monad_scope.
Local Open Scope monad_scope.

(** [v.k], throwing the TypeError of a read on [undefined] or [null]. *)
Definition prop {W} (v : value) (k : string) : M W value :=
  or_throw TypeError (get v k).

(** [arr.find(pred)]: the first element for which [pred] holds, else
    [undefined]; a throw of [pred] ends the search. *)
Fixpoint Array_find {W} (pred : value -> M W bool) (l : list value) : M W value :=
  match l with
  | [] => ret VUndefined
  | x :: r =>
      hit <- pred x ;;
      if hit then ret x else Array_find pred r
  end.

(** ** Argument objects shared by the two variants *)

(** The object literal [{ headers: defaults, ...requestInfo }]: a property
    of [requestInfo] replaces the default of the same name. *)
Definition spread (defaults : Headers) (requestInfo : option RequestOptions.t) : RequestOptions.t :=
  match requestInfo with
  | None =>
      {| RequestOptions.method := None;
         RequestOptions.headers := Some (Some defaults);
         RequestOptions.body := None |}
  | Some ri =>
      {| RequestOptions.method := RequestOptions.method ri;
         RequestOptions.headers :=
           match RequestOptions.headers ri with
           | Some h => Some h
           | None => Some (Some defaults)
           end;
         RequestOptions.body := RequestOptions.body ri |}
  end.

(** The third argument of [remoteRequest]. *)
Record RemoteArgs : Type := { query : option string }.

(** The second argument of [getMatchHistory]. *)
Record HistoryArgs : Type := {
  startIndex : option number;
  endIndex : option number;
  queue : option string
}.

(** ** The desktop-shell variant ([backend/api.ts] over [backend/fetch.ts]) *)

Module Tauri.

(** What the shell provides: the local data directory, the files, the
    [fetch] command ([None]: the command rejects) and the WebSocket plugin
    ([None]: the connection attempt rejects). *)
Record World : Type := {
  localDataDir : string;
  files : string -> option string;
  invoke_fetch : Request.t -> option HttpResponse.t;
  WebSocket_connect : string -> Headers -> option WebSocket
}.

Definition clientPlatform : string :=
  "ew0KCSJwbGF0Zm9ybVR5cGUiOiAiUEMiLA0KCSJwbGF0Zm9ybU9TIjogIldpbmRvd3MiLA0KCSJwbGF0Zm9ybU9TVmVyc2lvbiI6ICIxMC4wLjE5MDQyLjEuMjU2LjY0Yml0IiwNCgkicGxhdGZvcm1DaGlwc2V0IjogIlVua25vd24iDQp9".

Definition lockFilePath (w : World) : string :=
  localDataDir w ++ "Riot Games/Riot Client/Config/lockfile".

Definition logFilePath (w : World) : string :=
  localDataDir w ++ "VALORANT/Saved/Logs/ShooterGame.log".

Definition hostPattern : string := "https://glz-(.+?)-1.(.+?).a.pvp.net".

(** *** Shell calls *)

Definition info (message : string) : M World unit := emit (Log LInfo message).

Definition error (message : string) : M World unit := emit (Log LError message).

Definition exists_ (path : string) : M World bool :=
  emit (FsExists path) ;;
  w <- ask ;;
  ret (match files w path with Some _ => true | None => false end).

Definition readTextFile (path : string) : M World string :=
  emit (FsRead path) ;;
  w <- ask ;;
  or_throw (Rejected "readTextFile") (files w path).

(** *** The shim: [fetch(url, options)] *)

Definition fetch_request (url : string) (options : option RequestOptions.t) : Request.t :=
  {| Request.url := url;
     Request.headers :=
       match options with
       | Some o => match RequestOptions.headers o with
                   | Some h => h
                   | None => None
                   end
       | None => None
       end;
     Request.method :=
       match options with
       | Some o => match RequestOptions.method o with
                   | Some m => m
                   | None => "GET"
                   end
       | None => "GET"
       end;
     Request.body :=
       match options with
       | Some o => RequestOptions.body o
       | None => None
       end |}.

Definition fetch (url : string) (options : option RequestOptions.t) : M World HttpResponse.t :=
  let request := fetch_request url options in
  emit (Invoke request) ;;
  w <- ask ;;
  response <- or_throw (Rejected "invoke") (invoke_fetch w request) ;;
  if negb (HttpResponse.success response)
  then throw (Error "Unable to complete HTTP request.")
  else ret response.

Section WithEngine.
Context {engine : Engine}.

(** *** Setup methods *)

Definition parseLockFile : M World bool :=
  w <- ask ;;
  present <- exists_ (lockFilePath w) ;;
  if negb present then
    info "'lockfile' does not exist. Is VALORANT open?" ;;
    ret false
  else
    text <- readTextFile (lockFilePath w) ;;
    let fields := split ":" text in
    let username := item fields 0 in
    let processId := item fields 1 in
    let port := item fields 2 in
    let password := item fields 3 in
    let protocol := item fields 4 in
    assign (set_apiInfo
              {| username := username;
                 processId := ToNumber processId;
                 port := ToNumber port;
                 password := password;
                 protocol := protocol |}) ;;
    ret true.

Definition parseLogFile : M World bool :=
  w <- ask ;;
  present <- exists_ (logFilePath w) ;;
  if negb present then
    info "'ShooterGame.log' does not exist. Is VALORANT open?" ;;
    ret false
  else
    text <- readTextFile (logFilePath w) ;;
    match string_match text hostPattern with
    | None =>
        error "Failed to find the region and shard." ;;
        ret false
    | Some groups =>
        assign (set_region (item groups 1)) ;;
        assign (set_shard (item groups 2)) ;;
        ret true
    end.

Definition basicAuth (ai : APIInfo) : Headers :=
  [("Authorization", "Basic " ++ btoa ("riot:" ++ show (password ai)))].

Definition socketUrl (ai : APIInfo) : string :=
  "wss://127.0.0.1:" ++ number_toString (port ai).

Definition connectToSocket : M World bool :=
  a <- static ;;
  match apiInfo a with
  | None =>
      error "API information is not available." ;;
      ret false
  | Some ai =>
      info "Connecting to local websocket..." ;;
      try_catch
        (emit (WsConnect (socketUrl ai) (basicAuth ai)) ;;
         w <- ask ;;
         s <- or_throw (Rejected "WebSocket.connect")
                (WebSocket_connect w (socketUrl ai) (basicAuth ai)) ;;
         assign (set_socket s) ;;
         ret true)
        (fun _ => ret false)
  end.

(** *** Request methods *)

Definition localUrl (ai : APIInfo) (path : string) : string :=
  show (protocol ai) ++ "://127.0.0.1:" ++ number_toString (port ai) ++ "/" ++ path.

Definition localRequest (path : string) (requestInfo : option RequestOptions.t) : M World value :=
  a <- static ;;
  ai <- or_throw TypeError (apiInfo a) ;;
  response <- fetch (localUrl ai path) (Some (spread (basicAuth ai) requestInfo)) ;;
  if negb (HttpResponse.status response =? 200) then
    error ("Client did not return a good response: "
             ++ Z_toString (HttpResponse.status response) ++ " "
             ++ HttpResponse.body response) ;;
    throw (Error "Failed to fetch data.")
  else
    or_throw SyntaxError (JSON_parse (HttpResponse.body response)).

Definition is_pd (args : option RemoteArgs) : bool :=
  match args with
  | Some {| query := Some q |} => String.eqb q "pd"
  | _ => false
  end.

Definition baseUrl (a : API) (args : option RemoteArgs) : string :=
  if is_pd args
  then "https://pd." ++ show (shard a) ++ ".a.pvp.net"
  else "https://glz-" ++ show (region a) ++ "-1." ++ show (shard a) ++ ".a.pvp.net".

Definition remoteHeaders (a : API) : Headers :=
  [("X-Riot-ClientPlatform", clientPlatform);
   ("X-Riot-ClientVersion", ToString (clientVersion a));
   ("X-Riot-Entitlements-JWT", ToString (entitlementToken a));
   ("Authorization", "Bearer " ++ ToString (authToken a))].

Definition remoteRequest (path : string) (requestInfo : option RequestOptions.t)
    (args : option RemoteArgs) : M World value :=
  a <- static ;;
  response <- fetch (baseUrl a args ++ "/" ++ path)
                (Some (spread (remoteHeaders a) requestInfo)) ;;
  if negb (HttpResponse.status response =? 200) then
    error ("Server did not return a good response: "
             ++ Z_toString (HttpResponse.status response) ++ " "
             ++ HttpResponse.body response) ;;
    throw (Error "Failed to fetch data.")
  else
    or_throw SyntaxError (JSON_parse (HttpResponse.body response)).

(** *** Local API *)

Definition getEntitlementsToken : M World value :=
  localRequest "entitlements/v1/token" None.

Definition getChatSession : M World value :=
  localRequest "chat/v1/session" None.

Definition getSessions : M World value :=
  localRequest "product-session/v1/sessions" None.

Definition getHelp : M World value :=
  localRequest "help" None.

(** *** Remote API *)

Definition historyParams (args : option HistoryArgs) : URLSearchParams :=
  let params := [] in
  let params :=
    params_append params "startIndex"
      match args with
      | Some {| startIndex := Some n |} => number_toString n
      | _ => "0"
      end in
  let params :=
    params_append params "endIndex"
      match args with
      | Some {| endIndex := Some n |} => number_toString n
      | _ => "20"
      end in
  params_append params "queue"
    match args with
    | Some {| queue := Some q |} => q
    | _ => "competitive"
    end.

(** [playerUuid] defaults to [API.playerUuid] when the argument is left
    out. *)
Definition getMatchHistory (playerUuid' : option string) (args : option HistoryArgs) : M World value :=
  a <- static ;;
  let uuid := match playerUuid' with
              | Some u => VString u
              | None => playerUuid a
              end in
  let params := historyParams args in
  remoteRequest
    ("match-history/v1/history/" ++ ToString uuid ++ "?" ++ params_toString params)
    None (Some {| query := Some "pd" |}).

Definition getMatchData (matchId : string) : M World value :=
  remoteRequest ("match-details/v1/matches/" ++ matchId)
    None (Some {| query := Some "pd" |}).

Definition getCurrentGame (uuid : option string) : M World value :=
  a <- static ;;
  let uuid := match uuid with
              | Some u => VString u
              | None => playerUuid a
              end in
  remoteRequest ("core-game/v1/players/" ++ ToString uuid) None None.

Definition getGameData (gameId : string) : M World value :=
  remoteRequest ("core-game/v1/matches/" ++ gameId) None None.

Definition getCurrentPregame (uuid : option string) : M World value :=
  a <- static ;;
  let uuid := match uuid with
              | Some u => VString u
              | None => playerUuid a
              end in
  remoteRequest ("pregame/v1/players/" ++ ToString uuid) None None.

Definition getPregameData (pregameId : string) : M World value :=
  remoteRequest ("pregame/v1/matches/" ++ pregameId) None None.

(** *** [setupClient] *)

Definition isValorant (session : value) : M World bool :=
  productId <- prop session "productId" ;;
  ret (loose_eq_string productId "valorant").

Definition setupClient : M World bool :=
  a <- static ;;
  failed <- (match apiInfo a with
             | None => ok <- parseLockFile ;; ret (negb ok)
             | Some _ => ret false
             end) ;;
  if failed then ret false else
  a <- static ;;
  failed <- (if negb (truthy (region a))
             then ok <- parseLogFile ;; ret (negb ok)
             else ret false) ;;
  if failed then ret false else
  r <- getChatSession ;; assign (set_chatSession r) ;;
  r <- getSessions ;; assign (set_riotSessions r) ;;
  r <- getEntitlementsToken ;; assign (set_entitlements r) ;;
  a <- static ;;
  v <- prop (entitlements a) "accessToken" ;; assign (set_authToken v) ;;
  a <- static ;;
  v <- prop (chatSession a) "puuid" ;; assign (set_playerUuid v) ;;
  a <- static ;;
  v <- prop (entitlements a) "token" ;; assign (set_entitlementToken v) ;;
  a <- static ;;
  sessions <- or_throw TypeError (Object_values (riotSessions a)) ;;
  valorantSession <- Array_find isValorant sessions ;;
  if negb (ToBoolean valorantSession) then
    info "VALORANT session not found." ;;
    ret false
  else
    v <- prop valorantSession "version" ;; assign (set_clientVersion v) ;;
    connected <- connectToSocket ;;
    if negb connected then
      error "Failed to connect to the local API socket." ;;
      ret false
    else
      info "API setup is complete!" ;;
      ret true.

End WithEngine.

End Tauri.

(** ** The standalone-process variant (the [API] class run by Bun)

    The request methods and the remote accessors are embedded: they are
    what the two variants are compared on. *)

Module Bun.

(** A [Response] of the runtime's own [fetch]; [ok] is derived from the
    status. *)
Record Response : Type := {
  status : Z;
  body : string
}.

Definition ok (r : Response) : bool := (200 <=? status r) && (status r <=? 299).

(** The runtime's [fetch(url, init)]; [None]: the promise rejects. *)
Record World : Type := {
  fetch_ : string -> RequestOptions.t -> option Response
}.

Definition clientPlatform : string :=
  "ew0KCSJwbGF0Zm9ybVR5cGUiOiAiUEMiLA0KCSJwbGF0Zm9ybU9TIjogIldpbmRvd3MiLA0KCSJwbGF0Zm9ybU9TVmVyc2lvbiI6ICIxMC4wLjE5MDQyLjEuMjU2LjY0Yml0IiwNCgkicGxhdGZvcm1DaGlwc2V0IjogIlVua25vd24iDQp9".

Definition fetch (url : string) (init : RequestOptions.t) : M World Response :=
  emit (NativeFetch url init) ;;
  w <- ask ;;
  or_throw (Rejected "fetch") (fetch_ w url init).

Definition console_error (args : list value) : M World unit :=
  emit (Console LError args).

Section WithEngine.
Context {engine : Engine}.

(** [response.json()] *)
Definition json (r : Response) : M World value :=
  emit NativeJson ;;
  or_throw SyntaxError (JSON_parse (body r)).

Definition is_pd (args : option RemoteArgs) : bool :=
  match args with
  | Some {| query := Some q |} => String.eqb q "pd"
  | _ => false
  end.

Definition baseUrl (a : API) (args : option RemoteArgs) : string :=
  if is_pd args
  then "https://pd." ++ show (shard a) ++ ".a.pvp.net"
  else "https://glz-" ++ show (region a) ++ "-1." ++ show (shard a) ++ ".a.pvp.net".

Definition remoteHeaders (a : API) : Headers :=
  [("X-Riot-ClientPlatform", clientPlatform);
   ("X-Riot-ClientVersion", ToString (clientVersion a));
   ("X-Riot-Entitlements-JWT", ToString (entitlementToken a));
   ("Authorization", "Bearer " ++ ToString (authToken a))].

Definition remoteRequest (path : string) (requestInfo : option RequestOptions.t)
    (args : option RemoteArgs) : M World value :=
  a <- static ;;
  response <- fetch (baseUrl a args ++ "/" ++ path)
                (spread (remoteHeaders a) requestInfo) ;;
  if negb (ok response) then
    detail <- json response ;;
    console_error [VString "Server did not return a good response.";
                   VNumber (Int (status response)); detail] ;;
    throw (Error "Failed to fetch data.")
  else
    json response.

Definition historyParams (args : option HistoryArgs) : URLSearchParams :=
  let params := [] in
  let params :=
    params_append params "startIndex"
      match args with
      | Some {| startIndex := Some n |} => number_toString n
      | _ => "0"
      end in
  let params :=
    params_append params "endIndex"
      match args with
      | Some {| endIndex := Some n |} => number_toString n
      | _ => "20"
      end in
  params_append params "queue"
    match args with
    | Some {| queue := Some q |} => q
    | _ => "competitive"
    end.

(** Here [playerUuid] is a required argument. *)
Definition getMatchHistory (playerUuid' : string) (args : option HistoryArgs) : M World value :=
  let params := historyParams args in
  remoteRequest
    ("match-history/v1/history/" ++ playerUuid' ++ "?" ++ params_toString params)
    None (Some {| query := Some "pd" |}).

Definition basicAuth (ai : APIInfo) : Headers :=
  [("Authorization", "Basic " ++ btoa ("riot:" ++ show (password ai)))].

Definition localUrl (ai : APIInfo) (path : string) : string :=
  show (protocol ai) ++ "://127.0.0.1:" ++ number_toString (port ai) ++ "/" ++ path.

Definition localRequest (path : string) (requestInfo : option RequestOptions.t) : M World value :=
  a <- static ;;
  ai <- or_throw TypeError (apiInfo a) ;;
  response <- fetch (localUrl ai path) (spread (basicAuth ai) requestInfo) ;;
  if negb (ok response) then
    detail <- json response ;;
    console_error [VString "Client did not return a good response.";
                   VNumber (Int (status response)); detail] ;;
    throw (Error "Failed to fetch data.")
  else
    json response.

(** This variant has no argument here: the player is always the cached
    one. *)
Definition getCurrentGameId : M World value :=
  a <- static ;;
  remoteRequest ("core-game/v1/players/" ++ ToString (playerUuid a)) None None.

Definition getGameData (gameId : string) : M World value :=
  remoteRequest ("core-game/v1/matches/" ++ gameId) None None.

Definition getMatchData (matchId : string) : M World value :=
  remoteRequest ("match-details/v1/matches/" ++ matchId)
    None (Some {| query := Some "pd" |}).

End WithEngine.

End Bun.

(** ** Observations on a run *)

(** The requests handed to the shell's [fetch] command, oldest first. *)
Fixpoint invocations (t : list Event) : list Request.t :=
  match t with
  | [] => []
  | Invoke r :: t' => r :: invocations t'
  | _ :: t' => invocations t'
  end.

(** The URL of every outgoing HTTP request of either variant. *)
Fixpoint requested_urls (t : list Event) : list string :=
  match t with
  | [] => []
  | Invoke r :: t' => Request.url r :: requested_urls t'
  | NativeFetch u _ :: t' => u :: requested_urls t'
  | _ :: t' => requested_urls t'
  end.

Definition is_fs (e : Event) : bool :=
  match e with
  | FsExists _ | FsRead _ => true
  | _ => false
  end.

Definition is_ws (e : Event) : bool :=
  match e with
  | WsConnect _ _ => true
  | _ => false
  end.

(** A lock file as the game client writes it: five fields, the second and
    third of them decimal integers. *)
Definition decimal (s : string) : bool := nonempty s && all_chars is_digit s.

Definition well_formed_lock (text : string) : bool :=
  match split ":" text with
  | [_; pid; prt; _; _] => decimal pid && decimal prt
  | _ => false
  end.

(** The [APIInfo] that [parseLockFile] builds from a file's text. *)
Definition lock_info (text : string) : APIInfo :=
  let fields := split ":" text in
  {| username := item fields 0;
     processId := ToNumber (item fields 1);
     port := ToNumber (item fields 2);
     password := item fields 3;
     protocol := item fields 4 |}.

(** The host that the routing claim is about, and the literal opening of
    the pattern. *)
Definition na_host : string := "https://glz-na-1.na.a.pvp.net".

Definition host_prefix : string := "https://glz-".

(** The pattern after its literal opening. *)
Definition host_tail : list node := compile "(.+?)-1.(.+?).a.pvp.net".

(** The [headers] property of the optional [requestInfo] argument. *)
Definition options_headers (requestInfo : option RequestOptions.t) : option (option Headers) :=
  match requestInfo with
  | Some o => RequestOptions.headers o
  | None => None
  end.

(** The [query] property of the optional third argument. *)
Definition selector (args : option RemoteArgs) : option string :=
  match args with
  | Some a => query a
  | None => None
  end.

Definition invoked (m : Machine) (r : Request.t) : Machine :=
  {| api := api m; trace := trace m ++ [Invoke r] |}.

Section Calls.
Context {engine : Engine}.

(** The payload that [localRequest] hands to the shell. *)
Definition local_call (ai : APIInfo) (path : string) (requestInfo : option RequestOptions.t) : Request.t :=
  Tauri.fetch_request (Tauri.localUrl ai path)
    (Some (spread (Tauri.basicAuth ai) requestInfo)).

(** The payload that [remoteRequest] hands to the shell. *)
Definition remote_call (a : API) (path : string) (requestInfo : option RequestOptions.t)
    (args : option RemoteArgs) : Request.t :=
  Tauri.fetch_request (Tauri.baseUrl a args ++ "/" ++ path)
    (Some (spread (Tauri.remoteHeaders a) requestInfo)).

(** How a request method ends once the shell has answered ([reply]); the
    machine [m] already holds the [Invoke] event.  [who] is the word that
    opens the logged message. *)
Definition conclude (who : string) (reply : option HttpResponse.t) (m : Machine) : outcome value * Machine :=
  match reply with
  | None => (Throw (Rejected "invoke"), m)
  | Some r =>
      if negb (HttpResponse.success r) then
        (Throw (Error "Unable to complete HTTP request."), m)
      else if negb (HttpResponse.status r =? 200) then
        (Throw (Error "Failed to fetch data."),
         {| api := api m;
            trace := trace m ++ [Log LError
                                   (who ++ " did not return a good response: "
                                        ++ Z_toString (HttpResponse.status r) ++ " "
                                        ++ HttpResponse.body r)] |})
      else
        match JSON_parse (HttpResponse.body r) with
        | Some v => (Return v, m)
        | None => (Throw SyntaxError, m)
        end
  end.

End Calls.

(** ** The two halves of [setupClient] *)

(** The opening of [setupClient]: the two guarded locator calls.  [true]
    means that the method goes on. *)
Definition resolve : M Tauri.World bool :=
  (a <- static ;;
   failed <- (match apiInfo a with
              | None => ok <- Tauri.parseLockFile ;; ret (negb ok)
              | Some _ => ret false
              end) ;;
   if failed then ret false else
   a <- static ;;
   failed <- (if negb (truthy (region a))
              then ok <- Tauri.parseLogFile ;; ret (negb ok)
              else ret false) ;;
   if failed then ret false else ret true)%monad.

Section Halves.
Context {engine : Engine}.

(** The rest of [setupClient] once the chat session [r] has come back. *)
Definition after_chat (r : value) : M Tauri.World bool :=
  (assign (set_chatSession r) ;;
   r <- Tauri.getSessions ;; assign (set_riotSessions r) ;;
   r <- Tauri.getEntitlementsToken ;; assign (set_entitlements r) ;;
   a <- static ;;
   v <- prop (entitlements a) "accessToken" ;; assign (set_authToken v) ;;
   a <- static ;;
   v <- prop (chatSession a) "puuid" ;; assign (set_playerUuid v) ;;
   a <- static ;;
   v <- prop (entitlements a) "token" ;; assign (set_entitlementToken v) ;;
   a <- static ;;
   sessions <- or_throw TypeError (Object_values (riotSessions a)) ;;
   valorantSession <- Array_find Tauri.isValorant sessions ;;
   if negb (ToBoolean valorantSession) then
     Tauri.info "VALORANT session not found." ;;
     ret false
   else
     v <- prop valorantSession "version" ;; assign (set_clientVersion v) ;;
     connected <- Tauri.connectToSocket ;;
     if negb connected then
       Tauri.error "Failed to connect to the local API socket." ;;
       ret false
     else
       Tauri.info "API setup is complete!" ;;
       ret true)%monad.

(** The rest of [setupClient], from the first local request on. *)
Definition refresh : M Tauri.World bool :=
  (r <- Tauri.getChatSession ;; after_chat r)%monad.

(** The shell answers [req] with a successful 200 whose body parses to
    [v]. *)
Definition answers (w : Tauri.World) (req : Request.t) (v : value) : Prop :=
  exists r,
    Tauri.invoke_fetch w req = Some r
    /\ HttpResponse.success r = true
    /\ HttpResponse.status r = 200
    /\ JSON_parse (HttpResponse.body r) = Some v.

(** The test of [isValorant] as a value: [None] where it throws. *)
Definition matches_valorant (session : value) : option bool :=
  match get session "productId" with
  | Some productId => Some (loose_eq_string productId "valorant")
  | None => None
  end.

(** [sessions.find(isValorant)] as a value: [None] where the test throws
    before a match, [Some VUndefined] where nothing matches. *)
Fixpoint first_valorant (sessions : list value) : option value :=
  match sessions with
  | [] => Some VUndefined
  | x :: r =>
      match matches_valorant x with
      | None => None
      | Some true => Some x
      | Some false => first_valorant r
      end
  end.

End Halves.

(** ** Frames *)

(** [a'] has the session snapshots, the identity and the socket of [a]. *)
Definition same_session (a a' : API) : Prop :=
  chatSession a' = chatSession a /\ riotSessions a' = riotSessions a
  /\ entitlements a' = entitlements a /\ authToken a' = authToken a
  /\ playerUuid a' = playerUuid a /\ entitlementToken a' = entitlementToken a
  /\ clientVersion a' = clientVersion a /\ socket a' = socket a.

(** [m'] has the credentials and routing of [m], and its trace is that of
    [m] followed by events that do not touch the file system. *)
Definition keeps (m m' : Machine) : Prop :=
  apiInfo (api m') = apiInfo (api m)
  /\ region (api m') = region (api m)
  /\ shard (api m') = shard (api m)
  /\ exists evs, trace m' = (trace m ++ evs)%list
                 /\ forallb (fun e => negb (is_fs e)) evs = true.

Definition preserves {A} (c : M Tauri.World A) : Prop :=
  forall w m, keeps m (snd (c w m)).

(** ** Scenarios *)

Definition dq : string := str1 (chr 34).

(** A JSON string literal and a one-property JSON object, as text. *)
Definition quoted (s : string) : string := dq ++ s ++ dq.

Definition member (k v : string) : string := quoted k ++ ":" ++ v.

Definition chat_body : string := "{" ++ member "puuid" (quoted "player-1") ++ "}".

Definition chat_value : value := VObject [("puuid", VString "player-1")].

Definition token_body : string :=
  "{" ++ member "accessToken" (quoted "access-1") ++ ","
      ++ member "token" (quoted "jwt-1") ++ "}".

Definition token_value : value :=
  VObject [("accessToken", VString "access-1"); ("token", VString "jwt-1")].

Definition launcher_session : value :=
  VObject [("productId", VString "riot_client"); ("version", VString "90.0.1")].

Definition launcher_only_body : string :=
  "{" ++ member "host_app"
           ("{" ++ member "productId" (quoted "riot_client") ++ ","
                ++ member "version" (quoted "90.0.1") ++ "}") ++ "}".

Definition launcher_only_value : value := VObject [("host_app", launcher_session)].

Definition game_session : value :=
  VObject [("productId", VString "valorant"); ("version", VString "release-08.11")].

Definition both_sessions_body : string :=
  "{" ++ member "host_app"
           ("{" ++ member "productId" (quoted "riot_client") ++ ","
                ++ member "version" (quoted "90.0.1") ++ "}") ++ ","
      ++ member "game"
           ("{" ++ member "productId" (quoted "valorant") ++ ","
                ++ member "version" (quoted "release-08.11") ++ "}") ++ "}".

Definition both_sessions_value : value :=
  VObject [("host_app", launcher_session); ("game", game_session)].

(** An engine whose [JSON.parse] is tabulated on the bodies above. *)
Definition table_parse (s : string) : option value :=
  if String.eqb s chat_body then Some chat_value
  else if String.eqb s token_body then Some token_value
  else if String.eqb s launcher_only_body then Some launcher_only_value
  else if String.eqb s both_sessions_body then Some both_sessions_value
  else None.

Definition table_engine : Engine :=
  {| double_toString := fun lit => lit; JSON_parse := table_parse |}.

Definition dataDir : string := "C:/Users/me/AppData/Local/".

Definition one_file (path text : string) : string -> option string :=
  fun p => if String.eqb p path then Some text else None.

Definition two_files (p1 t1 p2 t2 : string) : string -> option string :=
  fun p => if String.eqb p p1 then Some t1
           else if String.eqb p p2 then Some t2 else None.

Definition lock_path : string := dataDir ++ "Riot Games/Riot Client/Config/lockfile".

Definition log_path : string := dataDir ++ "VALORANT/Saved/Logs/ShooterGame.log".

Definition ok_response (body : string) : HttpResponse.t :=
  {| HttpResponse.success := true; HttpResponse.status := 200;
     HttpResponse.body := body; HttpResponse.headers := [] |}.

Definition no_transport : Request.t -> option HttpResponse.t := fun _ => None.

Definition no_socket : string -> Headers -> option WebSocket := fun _ _ => None.

(** A machine on which only the lock file exists, with the given text. *)
Definition lock_world (text : string) : Tauri.World :=
  {| Tauri.localDataDir := dataDir;
     Tauri.files := one_file lock_path text;
     Tauri.invoke_fetch := no_transport;
     Tauri.WebSocket_connect := no_socket |}.

Definition log_world (text : string) : Tauri.World :=
  {| Tauri.localDataDir := dataDir;
     Tauri.files := one_file log_path text;
     Tauri.invoke_fetch := no_transport;
     Tauri.WebSocket_connect := no_socket |}.

Definition fresh : Machine := {| api := API_initial; trace := [] |}.

Definition good_lock : string := "riot:13472:52113:s3cr3t:https".

Definition eu_then_na_log : string :=
  "GET https://glz-eu-1.eu.a.pvp.net/x GET https://glz-na-1.na.a.pvp.net/y".

(** A shell that answers every request with [r]. *)
Definition reply_world (r : HttpResponse.t) : Tauri.World :=
  {| Tauri.localDataDir := dataDir;
     Tauri.files := fun _ => None;
     Tauri.invoke_fetch := fun _ => Some r;
     Tauri.WebSocket_connect := no_socket |}.

Definition not_found : HttpResponse.t :=
  {| HttpResponse.success := true; HttpResponse.status := 404;
     HttpResponse.body := "not found"; HttpResponse.headers := [] |}.

Definition unavailable : HttpResponse.t :=
  {| HttpResponse.success := true; HttpResponse.status := 503;
     HttpResponse.body := "try later"; HttpResponse.headers := [] |}.

(** A machine left by an earlier bootstrap. *)
Definition cached_api : API :=
  {| apiInfo := Some (lock_info good_lock);
     region := Some "na"; shard := Some "na";
     chatSession := VObject [("puuid", VString "player-0")];
     entitlements := VObject [("accessToken", VString "access-0"); ("token", VString "jwt-0")];
     riotSessions := VObject [];
     authToken := VString "access-0";
     playerUuid := VString "player-0";
     clientVersion := VString "release-08.00";
     entitlementToken := VString "jwt-0";
     socket := Some (Connection 7) |}.

Definition cached : Machine := {| api := cached_api; trace := [] |}.

Definition accept_json : RequestOptions.t :=
  {| RequestOptions.method := Some "GET";
     RequestOptions.headers := Some (Some [("Accept", "application/json")]);
     RequestOptions.body := None |}.

(** A local API that knows the three bootstrap endpoints. *)
Definition local_api (sessions_body : string) : Request.t -> option HttpResponse.t :=
  fun r =>
    if String.eqb (Request.url r) "https://127.0.0.1:52113/chat/v1/session"
    then Some (ok_response chat_body)
    else if String.eqb (Request.url r) "https://127.0.0.1:52113/product-session/v1/sessions"
    then Some (ok_response sessions_body)
    else if String.eqb (Request.url r) "https://127.0.0.1:52113/entitlements/v1/token"
    then Some (ok_response token_body)
    else None.

(** The game client is up (lock file and log are there) and the local API
    reports the sessions of [sessions_body]. *)
Definition running_world (sessions_body : string) : Tauri.World :=
  {| Tauri.localDataDir := dataDir;
     Tauri.files := two_files lock_path good_lock log_path ("LogHttp: GET " ++ na_host ++ "/session");
     Tauri.invoke_fetch := local_api sessions_body;
     Tauri.WebSocket_connect := fun _ _ => Some (Connection 8) |}.

(** ** Further observations and scenarios *)

(** A lock-file field: any text without the separator. *)
Definition no_colon (s : string) : bool :=
  all_chars (fun c => negb (Ascii.eqb c ":")) s.

(** The inner loop of [exec_at] on a lazy group, by name: [acc] is what
    the group holds so far. *)
Definition lazy_extend (p' : list node) (caps : list string) : string -> string -> option (list string * string) :=
  fix extend (s : string) (acc : string) {struct s} :=
    match s with
    | EmptyString => None
    | String a r =>
        if is_line_terminator a then None
        else
          let acc' := acc ++ str1 a in
          match exec_at p' r (caps ++ [acc'])%list with
          | Some res => Some res
          | None => extend r acc'
          end
    end.


(** What follows the second group of the host pattern. *)
Definition host_suffix : list node := compile ".a.pvp.net".

(** A character a region may hold for the lazy first group to stop where
    the region stops: no line terminator and no dash. *)
Definition region_char (c : ascii) : bool :=
  negb (is_line_terminator c) && negb (Ascii.eqb c "-").

Definition shard_char (c : ascii) : bool := negb (is_line_terminator c).

(** The requests handed to the shell by the end of a run of [c]. *)
Definition sent {W A : Type} (c : M W A) (w : W) (m : Machine) : list Request.t :=
  invocations (trace (snd (c w m))).



(** A GET without body that holds the headers [h]. *)
Definition get_request (url : string) (h : Headers) : Request.t :=
  {| Request.url := url; Request.headers := Some h;
     Request.method := "GET"; Request.body := None |}.

(** An argument that was given, or its default. *)
Definition or_default {A : Type} (d : A) (o : option A) : A :=
  match o with
  | Some x => x
  | None => d
  end.

(** A shell whose socket plugin accepts the connection. *)
Definition socket_world : Tauri.World :=
  {| Tauri.localDataDir := dataDir;
     Tauri.files := fun _ => None;
     Tauri.invoke_fetch := no_transport;
     Tauri.WebSocket_connect := fun _ _ => Some (Connection 8) |}.

(** The local API answers, the socket plugin rejects. *)
Definition socketless_world (sessions_body : string) : Tauri.World :=
  {| Tauri.localDataDir := dataDir;
     Tauri.files := two_files lock_path good_lock log_path ("LogHttp: GET " ++ na_host ++ "/session");
     Tauri.invoke_fetch := local_api sessions_body;
     Tauri.WebSocket_connect := no_socket |}.

(** A session list with a [null] entry in front of the game's. *)
Definition null_entry_body : string :=
  "{" ++ member "host_app" "null" ++ ","
      ++ member "game"
           ("{" ++ member "productId" (quoted "valorant") ++ ","
                ++ member "version" (quoted "release-08.11") ++ "}") ++ "}".

Definition null_entry_value : value :=
  VObject [("host_app", VNull); ("game", game_session)].

Definition null_entry_engine : Engine :=
  {| double_toString := fun lit => lit;
     JSON_parse := fun s => if String.eqb s null_entry_body
                            then Some null_entry_value
                            else table_parse s |}.

(** Only the lock file is there. *)
Definition lock_only_world : Tauri.World :=
  {| Tauri.localDataDir := dataDir;
     Tauri.files := one_file lock_path good_lock;
     Tauri.invoke_fetch := local_api both_sessions_body;
     Tauri.WebSocket_connect := fun _ _ => Some (Connection 8) |}.

(** Lock file and log are there, but the log names no host yet. *)
Definition quiet_log : string := "LogInit: Display: Starting Game.".

Definition quiet_log_world : Tauri.World :=
  {| Tauri.localDataDir := dataDir;
     Tauri.files := two_files lock_path good_lock log_path quiet_log;
     Tauri.invoke_fetch := local_api both_sessions_body;
     Tauri.WebSocket_connect := fun _ _ => Some (Connection 8) |}.

(** A standalone runtime whose [fetch] answers everything with [r]. *)
Definition bun_reply (r : Bun.Response) : Bun.World :=
  {| Bun.fetch_ := fun _ _ => Some r |}.

Definition bad_gateway : Bun.Response :=
  {| Bun.status := 502; Bun.body := "<html>Bad Gateway</html>" |}.

Definition bun_not_found : Bun.Response :=
  {| Bun.status := 404; Bun.body := chat_body |}.

Definition created : HttpResponse.t :=
  {| HttpResponse.success := true; HttpResponse.status := 201;
     HttpResponse.body := chat_body; HttpResponse.headers := [] |}.

Definition failed_transport : HttpResponse.t :=
  {| HttpResponse.success := false; HttpResponse.status := 0;
     HttpResponse.body := EmptyString; HttpResponse.headers := [] |}.

(** * Properties *)

Unset Implicit Arguments.

(** ** The engine model on concrete inputs *)

Example split_lock : split ":" "riot:13472:52113:s3cr3t:https"
                     = ["riot"; "13472"; "52113"; "s3cr3t"; "https"].
Proof. reflexivity. Qed.

Example split_empty : split ":" EmptyString = [EmptyString].
Proof. reflexivity. Qed.

Example split_trailing : split ":" "a:" = ["a"; EmptyString].
Proof. reflexivity. Qed.

Example plus_integers :
  map StringToNumber ["52113"; " 42 "; "007"; "-7"; "0x1F"; "12."]
  = [Int 52113; Int 42; Int 7; Int (-7); Int 31; Int 12].
Proof. reflexivity. Qed.

Example plus_empty : StringToNumber EmptyString = Int 0.
Proof. reflexivity. Qed.

Example plus_not_numbers :
  map StringToNumber ["no-port"; "12abc"; "0x"; "1e"; "."; "- 1"; "-0x1f"]
  = [NaN; NaN; NaN; NaN; NaN; NaN; NaN].
Proof. reflexivity. Qed.

Example plus_not_evaluated :
  map StringToNumber ["1.5"; "1e3"; "Infinity"; "9007199254740993"]
  = [Dbl "1.5"; Dbl "1e3"; Dbl "Infinity"; Dbl "9007199254740993"].
Proof. reflexivity. Qed.

Example plus_valorant : StringToNumber "valorant" = NaN.
Proof. reflexivity. Qed.

Example btoa_riot : btoa "riot:s3cr3t" = "cmlvdDpzM2NyM3Q=".
Proof. reflexivity. Qed.

Example btoa_padding : map btoa ["a"; "ab"; "abc"] = ["YQ=="; "YWI="; "YWJj"].
Proof. reflexivity. Qed.

Example params_escaped :
  params_toString [("queue", "spike rush"); ("a&b", "c/d~e")]
  = "queue=spike+rush&a%26b=c%2Fd%7Ee".
Proof. reflexivity. Qed.

Example match_groups :
  string_match "GET https://glz-ap-1.ap.a.pvp.net/x" Tauri.hostPattern
  = Some ["https://glz-ap-1.ap.a.pvp.net"; "ap"; "ap"].
Proof. reflexivity. Qed.

(** The dots of the pattern are wildcards and the groups take any
    characters of the line. *)
Example match_wildcards :
  string_match "https://glz-x y-1?z!a?pvp?net" Tauri.hostPattern
  = Some ["https://glz-x y-1?z!a?pvp?net"; "x y"; "z"].
Proof. reflexivity. Qed.

Example match_none : string_match "LogInit: Display: Starting Game." Tauri.hostPattern = None.
Proof. reflexivity. Qed.

Example loose_eq_array :
  loose_eq_string (engine := table_engine) (VArray [VString "valorant"]) "valorant" = true.
Proof. reflexivity. Qed.

(** A first bootstrap with the game running: every field is set and the
    socket is open. *)
Example setupClient_first_run :
  fst (Tauri.setupClient (engine := table_engine)
         (running_world both_sessions_body) fresh) = Return true
  /\ clientVersion (api (snd (Tauri.setupClient (engine := table_engine)
                                (running_world both_sessions_body) fresh)))
     = VString "release-08.11"
  /\ socket (api (snd (Tauri.setupClient (engine := table_engine)
                         (running_world both_sessions_body) fresh)))
     = Some (Connection 8).
Proof. repeat split; reflexivity. Qed.

(** Without a lock file the bootstrap stops at once. *)
Example setupClient_not_running :
  Tauri.setupClient (engine := table_engine) (log_world eu_then_na_log) fresh
  = (Return false,
     {| api := API_initial;
        trace := [FsExists lock_path;
                  Log LInfo "'lockfile' does not exist. Is VALORANT open?"] |}).
Proof. reflexivity. Qed.

(** ** Numeric conversion of decimal fields *)

Ltac bools :=
  repeat match goal with
         | H : _ && _ = true |- _ => apply andb_prop in H; destruct H
         | H : (_ <=? _) = true |- _ => apply Z.leb_le in H
         | H : (_ <? _) = true |- _ => apply Z.ltb_lt in H
         | H : (_ =? _) = true |- _ => apply Z.eqb_eq in H
         end.

Lemma eqb_false_of (a b : Z) : a <> b -> (a =? b) = false.
Proof. intro H. now apply Z.eqb_neq. Qed.

Lemma digit_not_space c : is_digit c = true -> is_space c = false.
Proof.
  unfold is_digit, is_space. intro H. bools.
  rewrite (eqb_false_of (code c) 32), (eqb_false_of (code c) 160) by lia.
  destruct (9 <=? code c) eqn:E1; destruct (code c <=? 13) eqn:E2;
    try reflexivity.
  bools. lia.
Qed.

Lemma trim_end_digits s : all_chars is_digit s = true -> trim_end s = s.
Proof.
  induction s as [|c r IH]; intro H; [reflexivity|].
  simpl in H. bools.
  change (trim_end (String c r))
    with (if is_blank (String c r) then EmptyString else String c (trim_end r)).
  unfold is_blank. simpl. rewrite digit_not_space by assumption.
  simpl. now rewrite IH.
Qed.

Lemma trim_digits s : all_chars is_digit s = true -> trim s = s.
Proof.
  intro H. unfold trim.
  destruct s as [|c r]; [reflexivity|].
  simpl in H. bools. simpl. rewrite digit_not_space by assumption.
  apply trim_end_digits. simpl. now rewrite H, H0.
Qed.

Lemma span_digits s : all_chars is_digit s = true -> span is_digit s = (s, EmptyString).
Proof.
  induction s as [|c r IH]; intro H; [reflexivity|].
  simpl in H. bools. simpl. rewrite H, IH by assumption. reflexivity.
Qed.

Lemma digit_val_bounds c : is_digit c = true -> 0 <= digit_val c <= 9.
Proof.
  unfold is_digit, digit_val. intro H. rewrite H. bools. lia.
Qed.

Lemma digits_from_nonneg s : forall acc,
  all_chars is_digit s = true -> 0 <= acc -> 0 <= digits_from 10 acc s.
Proof.
  induction s as [|c r IH]; intros acc H Hacc; cbn [digits_from]; [assumption|].
  cbn [all_chars] in H. bools. apply IH; [assumption|].
  pose proof (digit_val_bounds c H). lia.
Qed.

Lemma decimal_literal_digits lit s :
  decimal s = true -> digits_value 10 s <= safe_bound ->
  decimal_literal lit 1 s = Int (digits_value 10 s).
Proof.
  unfold decimal. intros H Hb. bools.
  assert (Hnn : 0 <= digits_value 10 s)
    by (apply digits_from_nonneg; [assumption | lia]).
  unfold decimal_literal.
  assert (Hinf : String.eqb s "Infinity" = false).
  { apply String.eqb_neq. intro E. subst s. discriminate H0. }
  rewrite Hinf. unfold unsigned_decimal.
  rewrite span_digits by assumption. rewrite H.
  unfold exact.
  replace (1 * digits_value 10 s) with (digits_value 10 s) by lia.
  rewrite Z.abs_eq by assumption.
  apply Z.leb_le in Hb. now rewrite Hb.
Qed.

(** Unary [+] on a string of decimal digits is the integer it spells, as
    long as a double holds it exactly. *)
Lemma StringToNumber_decimal s :
  decimal s = true -> digits_value 10 s <= safe_bound ->
  StringToNumber s = Int (digits_value 10 s).
Proof.
  intros H Hb. pose proof H as H'. unfold decimal in H'. bools.
  unfold StringToNumber. rewrite trim_digits by assumption.
  destruct s as [|c r]; [discriminate|].
  simpl in H1. bools.
  assert (Hc : 48 <= code c <= 57) by (unfold is_digit in H1; bools; lia).
  rewrite (eqb_false_of (code c) 43), (eqb_false_of (code c) 45) by lia.
  destruct (code c =? 48); [|now apply decimal_literal_digits].
  destruct r as [|x ds]; [now apply decimal_literal_digits|].
  simpl in H2. bools.
  assert (Hx : 48 <= code x <= 57) by (unfold is_digit in H2; bools; lia).
  rewrite (eqb_false_of (code x) 120), (eqb_false_of (code x) 88),
    (eqb_false_of (code x) 111), (eqb_false_of (code x) 79),
    (eqb_false_of (code x) 98), (eqb_false_of (code x) 66) by lia.
  simpl. now apply decimal_literal_digits.
Qed.

(** ** The credential locator *)

Ltac run_monad :=
  cbv [bind ret throw ask static assign emit or_throw try_catch prop
       Tauri.info Tauri.error Tauri.exists_ Tauri.readTextFile Tauri.fetch].

Lemma trace_two {A} (t : list A) (x y : A) : ((t ++ [x]) ++ [y] = t ++ [x; y])%list.
Proof. now rewrite <- app_assoc. Qed.

(** What [parseLockFile] does whenever the lock file exists: no test on
    the text, an [APIInfo] is always stored. *)
Lemma parseLockFile_run w m text :
  Tauri.files w (Tauri.lockFilePath w) = Some text ->
  Tauri.parseLockFile w m =
    (Return true,
     {| api := set_apiInfo (lock_info text) (api m);
        trace := trace m ++ [FsExists (Tauri.lockFilePath w);
                             FsRead (Tauri.lockFilePath w)] |}).
Proof.
  intro H. unfold Tauri.parseLockFile. run_monad.
  repeat (rewrite H; cbn [negb api trace]).
  rewrite trace_two. reflexivity.
Qed.

(** C3.  A lock file of exactly five colon-separated fields is accepted:
    [parseLockFile] returns [true] and caches an [APIInfo] whose username,
    password and protocol are the first, fourth and fifth field and whose
    processId and port are the numeric conversions of the second and
    third, which is the integer spelled whenever the field is a decimal
    integer. *)
Theorem parseLockFile_five_fields w m text a b c d e :
  Tauri.files w (Tauri.lockFilePath w) = Some text ->
  split ":" text = [a; b; c; d; e] ->
  exists ai,
    Tauri.parseLockFile w m =
      (Return true,
       {| api := set_apiInfo ai (api m);
          trace := trace m ++ [FsExists (Tauri.lockFilePath w);
                               FsRead (Tauri.lockFilePath w)] |})
    /\ username ai = Some a /\ password ai = Some d /\ protocol ai = Some e
    /\ processId ai = StringToNumber b /\ port ai = StringToNumber c
    /\ (decimal b = true -> digits_value 10 b <= safe_bound ->
        processId ai = Int (digits_value 10 b))
    /\ (decimal c = true -> digits_value 10 c <= safe_bound ->
        port ai = Int (digits_value 10 c)).
Proof.
  intros Hfile Hsplit. exists (lock_info text).
  split; [now apply parseLockFile_run|].
  unfold lock_info. rewrite Hsplit. cbn.
  repeat split; intros; now apply StringToNumber_decimal.
Qed.

Lemma parseLockFile_five_fields_witness :
  exists ai,
    Tauri.parseLockFile (lock_world good_lock) fresh =
      (Return true,
       {| api := set_apiInfo ai (api fresh);
          trace := trace fresh ++ [FsExists (Tauri.lockFilePath (lock_world good_lock));
                                   FsRead (Tauri.lockFilePath (lock_world good_lock))] |})
    /\ username ai = Some "riot" /\ password ai = Some "s3cr3t"
    /\ protocol ai = Some "https"
    /\ processId ai = Int 13472 /\ port ai = Int 52113.
Proof.
  destruct (parseLockFile_five_fields (lock_world good_lock) fresh good_lock
              "riot" "13472" "52113" "s3cr3t" "https" eq_refl eq_refl)
    as (ai & Hrun & Hu & Hpw & Hpr & _ & _ & Hpid & Hport).
  exists ai. repeat split; try assumption.
  - apply Hpid; [reflexivity | vm_compute; discriminate].
  - apply Hport; [reflexivity | vm_compute; discriminate].
Defined.

(** The claim C8 fails on a four-field file with a non-numeric port: the
    text is not well formed, yet the call returns [true] and caches an
    [APIInfo] built from it. *)
Lemma parseLockFile_malformed_accepted :
  well_formed_lock "riot:13472:no-port:s3cr3t" = false /\
  Tauri.parseLockFile (lock_world "riot:13472:no-port:s3cr3t") fresh =
    (Return true,
     {| api := set_apiInfo
                 {| username := Some "riot"; processId := Int 13472; port := NaN;
                    password := Some "s3cr3t"; protocol := None |} API_initial;
        trace := [FsExists lock_path; FsRead lock_path] |}).
Proof. split; reflexivity. Qed.

(** C8, amended.  Whatever the text of an existing lock file, well formed
    or not, [parseLockFile] raises no parse failure: it returns [true] and
    caches the [APIInfo] made of the first five colon-separated pieces,
    where a piece that is missing reads as [undefined] and as [NaN] for
    processId and port. *)
Theorem parseLockFile_accepts_any_text w m text :
  Tauri.files w (Tauri.lockFilePath w) = Some text ->
  Tauri.parseLockFile w m =
    (Return true,
     {| api := set_apiInfo (lock_info text) (api m);
        trace := trace m ++ [FsExists (Tauri.lockFilePath w);
                             FsRead (Tauri.lockFilePath w)] |})
  /\ (forall i, (List.length (split ":" text) <= i)%nat -> item (split ":" text) i = None)
  /\ ((List.length (split ":" text) <= 1)%nat -> processId (lock_info text) = NaN)
  /\ ((List.length (split ":" text) <= 2)%nat -> port (lock_info text) = NaN).
Proof.
  intro Hfile. split; [now apply parseLockFile_run|].
  assert (Hitem : forall i, (List.length (split ":" text) <= i)%nat ->
                            item (split ":" text) i = None)
    by (intros i Hi; now apply nth_error_None).
  split; [exact Hitem|].
  unfold lock_info; cbn [processId port].
  split; intro Hlen; rewrite Hitem by assumption; reflexivity.
Qed.

Lemma parseLockFile_accepts_any_text_witness :
  Tauri.parseLockFile (lock_world "riot") fresh =
    (Return true,
     {| api := set_apiInfo (lock_info "riot") (api fresh);
        trace := trace fresh ++ [FsExists (Tauri.lockFilePath (lock_world "riot"));
                                 FsRead (Tauri.lockFilePath (lock_world "riot"))] |})
  /\ item (split ":" "riot") 1 = None
  /\ processId (lock_info "riot") = NaN
  /\ port (lock_info "riot") = NaN.
Proof.
  destruct (parseLockFile_accepts_any_text (lock_world "riot") fresh "riot" eq_refl)
    as (Hrun & Hitem & Hpid & Hport).
  split; [exact Hrun|].
  split; [apply Hitem; cbn; lia|].
  split; [apply Hpid; cbn; lia | apply Hport; cbn; lia].
Defined.

(** ** The routing locator *)

Lemma regex_match_unfold p s :
  regex_match p s =
    match exec_at p s [] with
    | Some (caps, rest) => Some (take (String.length s - String.length rest) s :: caps)
    | None => match s with
              | EmptyString => None
              | String _ r => regex_match p r
              end
    end.
Proof. destruct s; reflexivity. Qed.

Lemma indexOf_unfold sub s :
  indexOf sub s =
    if String.prefix sub s then Some 0%nat
    else match s with
         | EmptyString => None
         | String _ r => option_map S (indexOf sub r)
         end.
Proof. destruct s; reflexivity. Qed.

(** A pattern that opens with literal characters cannot match where the
    text does not open with them. *)
Lemma exec_at_literal lit : forall p s caps,
  String.prefix lit s = false ->
  exec_at (map Char (list_ascii_of_string lit) ++ p) s caps = None.
Proof.
  induction lit as [|a l IH]; intros p s caps H.
  - destruct s; discriminate H.
  - destruct s as [|b s']; [reflexivity|].
    cbn [String.prefix] in H. cbn.
    destruct (ascii_dec a b) as [->|Hab].
    + rewrite Ascii.eqb_refl. now apply IH.
    + destruct (Ascii.eqb b a) eqn:E; [|reflexivity].
      apply Ascii.eqb_eq in E. congruence.
Qed.

Lemma compile_hostPattern :
  compile Tauri.hostPattern = (map Char (list_ascii_of_string host_prefix) ++ host_tail)%list.
Proof. reflexivity. Qed.

Lemma exec_at_na_host post :
  exec_at (compile Tauri.hostPattern) (na_host ++ post) [] = Some (["na"; "na"], post).
Proof. reflexivity. Qed.

(** When the first [https://glz-] of the text opens the North America
    host, that host is the first match and both groups are [na]. *)
Lemma regex_match_first_host post : forall pre,
  indexOf host_prefix (pre ++ na_host ++ post) = Some (String.length pre) ->
  exists whole,
    regex_match (compile Tauri.hostPattern) (pre ++ na_host ++ post)
    = Some [whole; "na"; "na"].
Proof.
  induction pre as [|c pre IH]; intro H.
  - rewrite regex_match_unfold. cbn [append].
    rewrite exec_at_na_host. eexists. reflexivity.
  - change (String c pre ++ na_host ++ post) with (String c (pre ++ na_host ++ post)) in *.
    rewrite indexOf_unfold in H. rewrite regex_match_unfold.
    destruct (String.prefix host_prefix (String c (pre ++ na_host ++ post))) eqn:E;
      [discriminate H|].
    rewrite compile_hostPattern, exec_at_literal by exact E.
    apply IH.
    destruct (indexOf host_prefix (pre ++ na_host ++ post)) as [n|];
      [|discriminate H].
    cbn in H. congruence.
Qed.

Lemma parseLogFile_run w m text groups :
  Tauri.files w (Tauri.logFilePath w) = Some text ->
  string_match text Tauri.hostPattern = Some groups ->
  Tauri.parseLogFile w m =
    (Return true,
     {| api := set_shard (item groups 2) (set_region (item groups 1) (api m));
        trace := trace m ++ [FsExists (Tauri.logFilePath w);
                             FsRead (Tauri.logFilePath w)] |}).
Proof.
  intros H Hm. unfold Tauri.parseLogFile. run_monad.
  repeat (rewrite H; cbn [negb api trace]).
  rewrite Hm. cbn [api trace]. rewrite trace_two. reflexivity.
Qed.

(** The claim C4 fails on a log in which another host was logged first:
    the text contains the North America host, yet region and shard are
    those of the first match. *)
Lemma parseLogFile_earlier_host_wins :
  includes na_host eu_then_na_log = true /\
  Tauri.parseLogFile (log_world eu_then_na_log) fresh =
    (Return true,
     {| api := set_shard (Some "eu") (set_region (Some "eu") API_initial);
        trace := [FsExists log_path; FsRead log_path] |}).
Proof. split; reflexivity. Qed.

(** C4, amended.  For every log whose first occurrence of [https://glz-]
    opens the substring [https://glz-na-1.na.a.pvp.net], [parseLogFile]
    returns [true] and caches region [na] and shard [na]: they are the
    groups of the first match of the host pattern. *)
Theorem parseLogFile_first_host w m pre post :
  Tauri.files w (Tauri.logFilePath w) = Some (pre ++ na_host ++ post) ->
  indexOf host_prefix (pre ++ na_host ++ post) = Some (String.length pre) ->
  Tauri.parseLogFile w m =
    (Return true,
     {| api := set_shard (Some "na") (set_region (Some "na") (api m));
        trace := trace m ++ [FsExists (Tauri.logFilePath w);
                             FsRead (Tauri.logFilePath w)] |}).
Proof.
  intros Hfile Hfirst.
  destruct (regex_match_first_host post pre Hfirst) as [whole Hm].
  now rewrite (parseLogFile_run w m _ [whole; "na"; "na"] Hfile Hm).
Qed.

Lemma parseLogFile_first_host_witness :
  Tauri.parseLogFile (log_world ("LogHttp: GET " ++ na_host ++ "/session/v1")) fresh =
    (Return true,
     {| api := set_shard (Some "na") (set_region (Some "na") (api fresh));
        trace := trace fresh
                 ++ [FsExists (Tauri.logFilePath (log_world ("LogHttp: GET " ++ na_host ++ "/session/v1")));
                     FsRead (Tauri.logFilePath (log_world ("LogHttp: GET " ++ na_host ++ "/session/v1")))] |}).
Proof.
  apply (parseLogFile_first_host
           (log_world ("LogHttp: GET " ++ na_host ++ "/session/v1")) fresh
           "LogHttp: GET " "/session/v1"); reflexivity.
Defined.

(** ** The request methods *)

Lemma invocations_app t u : invocations (t ++ u) = (invocations t ++ invocations u)%list.
Proof.
  induction t as [|e t IH]; [reflexivity|].
  destruct e; cbn; now rewrite IH.
Qed.

Section Requests.
Context {engine : Engine}.

Lemma localRequest_run w m path ri ai :
  apiInfo (api m) = Some ai ->
  Tauri.localRequest path ri w m =
    conclude "Client" (Tauri.invoke_fetch w (local_call ai path ri))
      (invoked m (local_call ai path ri)).
Proof.
  intro H. unfold Tauri.localRequest, conclude, invoked, local_call. run_monad.
  rewrite H. cbn [api trace].
  destruct (Tauri.invoke_fetch w _) as [r|]; [|reflexivity].
  destruct (HttpResponse.success r); cbn [negb]; [|reflexivity].
  destruct (HttpResponse.status r =? 200); cbn [negb api trace]; [|reflexivity].
  destruct (JSON_parse (HttpResponse.body r)); reflexivity.
Qed.

Lemma localRequest_unset w m path ri :
  apiInfo (api m) = None ->
  Tauri.localRequest path ri w m = (Throw TypeError, m).
Proof.
  intro H. unfold Tauri.localRequest. run_monad. now rewrite H.
Qed.

Lemma remoteRequest_run w m path ri args :
  Tauri.remoteRequest path ri args w m =
    conclude "Server" (Tauri.invoke_fetch w (remote_call (api m) path ri args))
      (invoked m (remote_call (api m) path ri args)).
Proof.
  unfold Tauri.remoteRequest, conclude, invoked, remote_call. run_monad.
  cbn [api trace].
  destruct (Tauri.invoke_fetch w _) as [r|]; [|reflexivity].
  destruct (HttpResponse.success r); cbn [negb]; [|reflexivity].
  destruct (HttpResponse.status r =? 200); cbn [negb api trace]; [|reflexivity].
  destruct (JSON_parse (HttpResponse.body r)); reflexivity.
Qed.

(** Whatever the answer, a request method adds no [Invoke] event beyond
    its own, and leaves the class fields alone. *)
Lemma conclude_frame who reply m :
  api (snd (conclude who reply m)) = api m
  /\ invocations (trace (snd (conclude who reply m))) = invocations (trace m).
Proof.
  unfold conclude. destruct reply as [r|]; [|now split].
  destruct (HttpResponse.success r); cbn [negb]; [|now split].
  destruct (HttpResponse.status r =? 200); cbn [negb].
  - destruct (JSON_parse (HttpResponse.body r)); now split.
  - cbn [snd api trace]. split; [reflexivity|].
    rewrite invocations_app. cbn. now rewrite app_nil_r.
Qed.

Lemma conclude_invoked who reply m r :
  invocations (trace (snd (conclude who reply (invoked m r))))
  = (invocations (trace m) ++ [r])%list.
Proof.
  destruct (conclude_frame who reply (invoked m r)) as [_ ->].
  unfold invoked. cbn [trace]. now rewrite invocations_app.
Qed.

End Requests.

Section RequestClaims.
Context {engine : Engine}.

(** C1, amended.  For every path, request options and response whose
    status is not 200, [localRequest] and [remoteRequest] return nothing:
    they throw.  When the shell marks the response successful they first
    log one error line holding the status and the body and then throw the
    fixed [Error] "Failed to fetch data."; otherwise the shim has already
    thrown the fixed [Error] "Unable to complete HTTP request.".  Neither
    error holds the status or the body. *)
Theorem request_non200_throws w m path ri args r :
  HttpResponse.status r <> 200 ->
  (forall ai,
     apiInfo (api m) = Some ai ->
     Tauri.invoke_fetch w (local_call ai path ri) = Some r ->
     Tauri.localRequest path ri w m =
       (Throw (Error (if HttpResponse.success r
                      then "Failed to fetch data."
                      else "Unable to complete HTTP request.")),
        {| api := api m;
           trace := trace m
                    ++ Invoke (local_call ai path ri)
                       :: (if HttpResponse.success r
                           then [Log LError
                                   ("Client did not return a good response: "
                                      ++ Z_toString (HttpResponse.status r) ++ " "
                                      ++ HttpResponse.body r)]
                           else []) |}))
  /\ (Tauri.invoke_fetch w (remote_call (api m) path ri args) = Some r ->
      Tauri.remoteRequest path ri args w m =
        (Throw (Error (if HttpResponse.success r
                       then "Failed to fetch data."
                       else "Unable to complete HTTP request.")),
         {| api := api m;
            trace := trace m
                     ++ Invoke (remote_call (api m) path ri args)
                        :: (if HttpResponse.success r
                            then [Log LError
                                    ("Server did not return a good response: "
                                       ++ Z_toString (HttpResponse.status r) ++ " "
                                       ++ HttpResponse.body r)]
                            else []) |})).
Proof.
  intro Hs. apply Z.eqb_neq in Hs. split.
  - intros ai Hai Hr. rewrite (localRequest_run w m path ri ai Hai), Hr.
    unfold conclude, invoked. destruct (HttpResponse.success r); cbn [negb].
    + rewrite Hs. cbn [negb api trace]. now rewrite trace_two.
    + reflexivity.
  - intro Hr. rewrite remoteRequest_run, Hr.
    unfold conclude, invoked. destruct (HttpResponse.success r); cbn [negb].
    + rewrite Hs. cbn [negb api trace]. now rewrite trace_two.
    + reflexivity.
Qed.

(** C5.  Called with no argument, [getMatchHistory] hands the shell
    exactly one request; its URL is the per-shard [pd] host followed by
    the history path of the cached player and the query string
    [startIndex=0&endIndex=20&queue=competitive]. *)
Theorem getMatchHistory_default_query w m :
  exists req,
    invocations (trace (snd (Tauri.getMatchHistory None None w m)))
    = (invocations (trace m) ++ [req])%list
    /\ Request.url req =
         ("https://pd." ++ show (shard (api m)) ++ ".a.pvp.net")
           ++ "/"
           ++ ("match-history/v1/history/" ++ ToString (playerUuid (api m))
                 ++ "?" ++ "startIndex=0&endIndex=20&queue=competitive")
    /\ Request.method req = "GET".
Proof.
  eexists. split.
  - unfold Tauri.getMatchHistory. unfold bind at 1. unfold static at 1.
    rewrite remoteRequest_run. apply conclude_invoked.
  - split; reflexivity.
Qed.

(** C6.  For every path and request options, [remoteRequest] hands the
    shell exactly one request, whose URL is a base host, a slash and the
    path; the base host depends on the selector and the cached region and
    shard only: [pd] gives [https://pd.{shard}.a.pvp.net], any other
    selector or none gives [https://glz-{region}-1.{shard}.a.pvp.net]. *)
Theorem remoteRequest_host_by_selector w m path ri args :
  exists req,
    invocations (trace (snd (Tauri.remoteRequest path ri args w m)))
    = (invocations (trace m) ++ [req])%list
    /\ Request.url req = Tauri.baseUrl (api m) args ++ "/" ++ path
    /\ (selector args = Some "pd" ->
        Tauri.baseUrl (api m) args
        = "https://pd." ++ show (shard (api m)) ++ ".a.pvp.net")
    /\ (selector args <> Some "pd" ->
        Tauri.baseUrl (api m) args
        = "https://glz-" ++ show (region (api m)) ++ "-1."
            ++ show (shard (api m)) ++ ".a.pvp.net").
Proof.
  exists (remote_call (api m) path ri args).
  split; [rewrite remoteRequest_run; apply conclude_invoked|].
  split; [reflexivity|].
  unfold Tauri.baseUrl, Tauri.is_pd, selector.
  destruct args as [[[q|]]|]; cbn.
  - destruct (String.eqb q "pd") eqn:E.
    + split; [reflexivity|]. apply String.eqb_eq in E. congruence.
    + split; [|reflexivity]. intro H. apply String.eqb_neq in E. congruence.
  - split; [discriminate|reflexivity].
  - split; [discriminate|reflexivity].
Qed.

(** C7, amended.  For every path and request options, [localRequest]
    hands the shell exactly one request, to the URL
    [{protocol}://127.0.0.1:{port}/{path}] of the cached [APIInfo].  The
    request holds the Basic [Authorization] header of user [riot] and the
    cached password when the options are absent or have no [headers]
    property; a [headers] property of the options replaces it. *)
Theorem localRequest_url_and_auth w m path ri ai :
  apiInfo (api m) = Some ai ->
  exists req,
    invocations (trace (snd (Tauri.localRequest path ri w m)))
    = (invocations (trace m) ++ [req])%list
    /\ Request.url req =
         show (protocol ai) ++ "://127.0.0.1:" ++ number_toString (port ai)
           ++ "/" ++ path
    /\ (options_headers ri = None ->
        Request.headers req =
          Some [("Authorization", "Basic " ++ btoa ("riot:" ++ show (password ai)))])
    /\ (forall h, options_headers ri = Some h -> Request.headers req = h).
Proof.
  intro Hai. exists (local_call ai path ri).
  split; [rewrite (localRequest_run w m path ri ai Hai); apply conclude_invoked|].
  split; [reflexivity|].
  unfold local_call, Tauri.fetch_request, spread, options_headers.
  destruct ri as [o|]; cbn.
  - destruct (RequestOptions.headers o) as [h|].
    + split; [discriminate|]. intros h' E. congruence.
    + split; [reflexivity|discriminate].
  - split; [reflexivity|discriminate].
Qed.

End RequestClaims.

Lemma request_non200_throws_witness :
  Tauri.localRequest (engine := table_engine) "help" None (reply_world not_found) cached =
    (Throw (Error "Failed to fetch data."),
     {| api := cached_api;
        trace := [Invoke (local_call (engine := table_engine) (lock_info good_lock) "help" None);
                  Log LError "Client did not return a good response: 404 not found"] |})
  /\ Tauri.remoteRequest (engine := table_engine) "core-game/v1/players/player-0" None None
       (reply_world not_found) cached =
    (Throw (Error "Failed to fetch data."),
     {| api := cached_api;
        trace := [Invoke (remote_call (engine := table_engine) cached_api
                            "core-game/v1/players/player-0" None None);
                  Log LError "Server did not return a good response: 404 not found"] |}).
Proof.
  split.
  - apply (proj1 (request_non200_throws (engine := table_engine)
                    (reply_world not_found) cached "help" None None not_found
                    ltac:(discriminate)) (lock_info good_lock));
      reflexivity.
  - apply (proj2 (request_non200_throws (engine := table_engine)
                    (reply_world not_found) cached
                    "core-game/v1/players/player-0" None None not_found
                    ltac:(discriminate)));
      reflexivity.
Defined.

(** The claim C1 fails on two different failing responses: both calls
    throw the very same error, so the error cannot hold the status or the
    body of the response. *)
Lemma request_error_forgets_response :
  HttpResponse.status not_found <> 200
  /\ HttpResponse.status unavailable <> 200
  /\ HttpResponse.status not_found <> HttpResponse.status unavailable
  /\ HttpResponse.body not_found <> HttpResponse.body unavailable
  /\ fst (Tauri.localRequest (engine := table_engine) "help" None
            (reply_world not_found) cached)
     = Throw (Error "Failed to fetch data.")
  /\ fst (Tauri.localRequest (engine := table_engine) "help" None
            (reply_world unavailable) cached)
     = Throw (Error "Failed to fetch data.")
  /\ fst (Tauri.remoteRequest (engine := table_engine) "help" None None
            (reply_world not_found) cached)
     = fst (Tauri.remoteRequest (engine := table_engine) "help" None None
              (reply_world unavailable) cached).
Proof. repeat split; (discriminate || reflexivity). Qed.

Lemma remoteRequest_host_by_selector_witness :
  exists req,
    invocations (trace (snd (Tauri.remoteRequest (engine := table_engine)
                               "pregame/v1/players/player-0" None
                               (Some {| query := Some "glz" |})
                               (reply_world not_found) cached)))
    = (invocations (trace cached) ++ [req])%list
    /\ Request.url req =
         Tauri.baseUrl cached_api (Some {| query := Some "glz" |})
           ++ "/" ++ "pregame/v1/players/player-0"
    /\ Tauri.baseUrl cached_api (Some {| query := Some "glz" |})
       = "https://glz-na-1.na.a.pvp.net"
    /\ Tauri.baseUrl cached_api (Some {| query := Some "pd" |})
       = "https://pd.na.a.pvp.net".
Proof.
  destruct (remoteRequest_host_by_selector (engine := table_engine)
              (reply_world not_found) cached "pregame/v1/players/player-0" None
              (Some {| query := Some "glz" |}))
    as (req & Hone & Hurl & _ & Hglz).
  destruct (remoteRequest_host_by_selector (engine := table_engine)
              (reply_world not_found) cached "pregame/v1/players/player-0" None
              (Some {| query := Some "pd" |}))
    as (_ & _ & _ & Hpd & _).
  exists req. split; [exact Hone|]. split; [exact Hurl|].
  split; [apply Hglz; discriminate | apply Hpd; reflexivity].
Defined.

Lemma localRequest_url_and_auth_witness :
  exists req,
    invocations (trace (snd (Tauri.localRequest (engine := table_engine) "help" None
                               (reply_world not_found) cached)))
    = (invocations (trace cached) ++ [req])%list
    /\ Request.url req = "https://127.0.0.1:52113/help"
    /\ Request.headers req = Some [("Authorization", "Basic cmlvdDpzM2NyM3Q=")].
Proof.
  destruct (localRequest_url_and_auth (engine := table_engine)
              (reply_world not_found) cached "help" None (lock_info good_lock) eq_refl)
    as (req & Hone & Hurl & Hauth & _).
  exists req. split; [exact Hone|]. split; [exact Hurl|].
  apply Hauth. reflexivity.
Defined.

(** The claim C7 fails on options that bring their own [headers]: the
    request that leaves has those headers only, without [Authorization]. *)
Lemma localRequest_headers_replaced :
  invocations (trace (snd (Tauri.localRequest (engine := table_engine) "help"
                             (Some accept_json) (reply_world not_found) cached)))
  = [{| Request.url := "https://127.0.0.1:52113/help";
        Request.headers := Some [("Accept", "application/json")];
        Request.method := "GET";
        Request.body := None |}].
Proof. reflexivity. Qed.

(** ** The standalone-process variant against the desktop-shell variant *)

Lemma requested_urls_app t u :
  requested_urls (t ++ u) = (requested_urls t ++ requested_urls u)%list.
Proof.
  induction t as [|e t IH]; [reflexivity|].
  destruct e; cbn; now rewrite IH.
Qed.

Section Variants.
Context {engine : Engine}.

Lemma Tauri_remoteRequest_urls w m path ri args :
  requested_urls (trace (snd (Tauri.remoteRequest path ri args w m)))
  = (requested_urls (trace m)
     ++ [(Tauri.baseUrl (api m) args ++ "/" ++ path)%string])%list.
Proof.
  rewrite remoteRequest_run. unfold conclude, invoked.
  destruct (Tauri.invoke_fetch w _) as [r|];
    [|cbn [snd trace]; now rewrite requested_urls_app].
  destruct (HttpResponse.success r); cbn [negb];
    [|cbn [snd trace]; now rewrite requested_urls_app].
  destruct (HttpResponse.status r =? 200); cbn [negb].
  - destruct (JSON_parse _); cbn [snd trace]; now rewrite requested_urls_app.
  - cbn [snd trace]. rewrite !requested_urls_app. cbn. now rewrite app_nil_r.
Qed.

Lemma Bun_remoteRequest_urls w m path ri args :
  requested_urls (trace (snd (Bun.remoteRequest path ri args w m)))
  = (requested_urls (trace m)
     ++ [(Bun.baseUrl (api m) args ++ "/" ++ path)%string])%list.
Proof.
  unfold Bun.remoteRequest, Bun.fetch, Bun.json, Bun.console_error. run_monad.
  cbn [api trace].
  destruct (Bun.fetch_ w _ _) as [r|];
    [|cbn [snd trace]; now rewrite requested_urls_app].
  destruct (Bun.ok r); cbn [negb api trace].
  - destruct (JSON_parse _); cbn [snd trace];
      rewrite !requested_urls_app; cbn; now rewrite app_nil_r.
  - destruct (JSON_parse _); cbn [snd trace api];
      rewrite !requested_urls_app; cbn; now rewrite ?app_nil_r.
Qed.

(** C10.  On the same cached state and the same arguments the two
    variants send the same URLs: [remoteRequest] picks the same base host
    and appends the same path, and [getMatchHistory], given a player,
    builds the same path and the same query string, defaults included. *)
Theorem variants_send_same_url (w : Tauri.World) (w' : Bun.World) m path ri args uuid hargs :
  requested_urls (trace (snd (Tauri.remoteRequest path ri args w m)))
  = requested_urls (trace (snd (Bun.remoteRequest path ri args w' m)))
  /\ requested_urls (trace (snd (Tauri.getMatchHistory (Some uuid) hargs w m)))
     = requested_urls (trace (snd (Bun.getMatchHistory uuid hargs w' m)))
  /\ requested_urls (trace (snd (Bun.getMatchHistory uuid hargs w' m)))
     = (requested_urls (trace m)
        ++ [(Bun.baseUrl (api m) (Some {| query := Some "pd" |})
               ++ "/"
               ++ ("match-history/v1/history/" ++ uuid ++ "?"
                     ++ params_toString (Bun.historyParams hargs)))%string])%list
  /\ Tauri.baseUrl (api m) args = Bun.baseUrl (api m) args
  /\ Tauri.historyParams hargs = Bun.historyParams hargs.
Proof.
  assert (Hh : requested_urls (trace (snd (Bun.getMatchHistory uuid hargs w' m)))
               = (requested_urls (trace m)
                  ++ [(Bun.baseUrl (api m) (Some {| query := Some "pd" |})
                         ++ "/"
                         ++ ("match-history/v1/history/" ++ uuid ++ "?"
                               ++ params_toString (Bun.historyParams hargs)))%string])%list)
    by (unfold Bun.getMatchHistory; apply Bun_remoteRequest_urls).
  split; [now rewrite Tauri_remoteRequest_urls, Bun_remoteRequest_urls|].
  split; [|now repeat split].
  rewrite Hh. unfold Tauri.getMatchHistory. unfold bind at 1. unfold static at 1.
  now rewrite Tauri_remoteRequest_urls.
Qed.

End Variants.

(** ** [setupClient] *)

Lemma bind_run {W A B} (c : M W A) (k : A -> M W B) w m a m1 :
  c w m = (Return a, m1) -> bind c k w m = k a w m1.
Proof. intro H. unfold bind. now rewrite H. Qed.

Lemma bind_returns {W A B} (c : M W A) (k : A -> M W B) w m b m' :
  bind c k w m = (Return b, m') ->
  exists a m1, c w m = (Return a, m1) /\ k a w m1 = (Return b, m').
Proof.
  unfold bind. destruct (c w m) as [[a|e] m1]; intro H; [|discriminate H].
  now exists a, m1.
Qed.

Section Setup.
Context {engine : Engine}.

Lemma setupClient_split w m :
  Tauri.setupClient w m =
    match resolve w m with
    | (Return true, m1) => refresh w m1
    | (Return false, m1) => (Return false, m1)
    | (Throw e, m1) => (Throw e, m1)
    end.
Proof.
  unfold Tauri.setupClient, resolve, refresh, after_chat.
  cbv [bind static ret]. cbv beta.
  destruct (apiInfo (api m)) as [ai|].
  - destruct (negb (truthy (region (api m)))); [|reflexivity].
    destruct (Tauri.parseLogFile w m) as [[[|]|e] m1]; reflexivity.
  - destruct (Tauri.parseLockFile w m) as [[[|]|e] m1]; cbn [negb];
      try reflexivity.
    destruct (negb (truthy (region (api m1)))); [|reflexivity].
    destruct (Tauri.parseLogFile w m1) as [[[|]|e] m2]; reflexivity.
Qed.

Lemma resolve_cached w m ai :
  apiInfo (api m) = Some ai -> truthy (region (api m)) = true ->
  resolve w m = (Return true, m).
Proof.
  intros Hai Hr. unfold resolve. cbv [bind static ret]. now rewrite Hai, Hr.
Qed.

Lemma parseLockFile_absent w m :
  Tauri.files w (Tauri.lockFilePath w) = None ->
  Tauri.parseLockFile w m =
    (Return false,
     {| api := api m;
        trace := trace m ++ [FsExists (Tauri.lockFilePath w);
                             Log LInfo "'lockfile' does not exist. Is VALORANT open?"] |}).
Proof.
  intro H. unfold Tauri.parseLockFile. run_monad.
  repeat (rewrite H; cbn [negb api trace]).
  rewrite trace_two. reflexivity.
Qed.

Lemma parseLogFile_absent w m :
  Tauri.files w (Tauri.logFilePath w) = None ->
  Tauri.parseLogFile w m =
    (Return false,
     {| api := api m;
        trace := trace m ++ [FsExists (Tauri.logFilePath w);
                             Log LInfo "'ShooterGame.log' does not exist. Is VALORANT open?"] |}).
Proof.
  intro H. unfold Tauri.parseLogFile. run_monad.
  repeat (rewrite H; cbn [negb api trace]).
  rewrite trace_two. reflexivity.
Qed.

Lemma parseLogFile_no_match w m text :
  Tauri.files w (Tauri.logFilePath w) = Some text ->
  string_match text Tauri.hostPattern = None ->
  Tauri.parseLogFile w m =
    (Return false,
     {| api := api m;
        trace := trace m ++ [FsExists (Tauri.logFilePath w);
                             FsRead (Tauri.logFilePath w);
                             Log LError "Failed to find the region and shard."] |}).
Proof.
  intros H Hm. unfold Tauri.parseLogFile. run_monad.
  repeat (rewrite H; cbn [negb api trace]).
  rewrite Hm. cbn [api trace]. rewrite trace_two, <- app_assoc. reflexivity.
Qed.

(** The locators write the credentials and the routing only. *)
Lemma parseLockFile_identity w m :
  same_session (api m) (api (snd (Tauri.parseLockFile w m))).
Proof.
  destruct (Tauri.files w (Tauri.lockFilePath w)) as [text|] eqn:E.
  - rewrite (parseLockFile_run w m text E). cbn. now repeat split.
  - rewrite (parseLockFile_absent w m E). cbn. now repeat split.
Qed.

Lemma parseLogFile_identity w m :
  same_session (api m) (api (snd (Tauri.parseLogFile w m))).
Proof.
  destruct (Tauri.files w (Tauri.logFilePath w)) as [text|] eqn:E.
  - destruct (string_match text Tauri.hostPattern) as [groups|] eqn:Em.
    + rewrite (parseLogFile_run w m text groups E Em). cbn. now repeat split.
    + rewrite (parseLogFile_no_match w m text E Em). cbn. now repeat split.
  - rewrite (parseLogFile_absent w m E). cbn. now repeat split.
Qed.

Lemma same_session_refl a : same_session a a.
Proof. unfold same_session. now repeat split. Qed.

Lemma same_session_trans a b c :
  same_session a b -> same_session b c -> same_session a c.
Proof. unfold same_session. intuition congruence. Qed.

Lemma resolve_identity w m :
  same_session (api m) (api (snd (resolve w m))).
Proof.
  unfold resolve. cbv [bind static ret]. cbv beta.
  pose proof (parseLockFile_identity w m) as Hlock.
  destruct (apiInfo (api m)) as [ai|].
  - pose proof (parseLogFile_identity w m) as Hlog.
    destruct (negb (truthy (region (api m)))); [|apply same_session_refl].
    destruct (Tauri.parseLogFile w m) as [[[|]|e] m1]; exact Hlog.
  - destruct (Tauri.parseLockFile w m) as [[[|]|e] m1]; cbn [negb];
      try exact Hlock.
    pose proof (parseLogFile_identity w m1) as Hlog.
    cbn [snd] in Hlock.
    destruct (negb (truthy (region (api m1)))); [|exact Hlock].
    destruct (Tauri.parseLogFile w m1) as [[[|]|e] m2]; cbn [snd negb] in *;
      now apply (same_session_trans _ _ _ Hlock).
Qed.

End Setup.

Ltac tidy :=
  cbn [api trace invoked fst snd negb
       set_apiInfo set_region set_shard set_chatSession set_entitlements
       set_riotSessions set_authToken set_playerUuid set_clientVersion
       set_entitlementToken set_socket
       apiInfo region shard chatSession entitlements riotSessions authToken
       playerUuid clientVersion entitlementToken socket] in *.

Ltac step_with H := erewrite bind_run; [|tidy; exact H]; tidy.
Ltac step_refl := erewrite bind_run; [|reflexivity]; tidy.
Ltac step_prop H := erewrite bind_run; [|unfold prop; rewrite H; reflexivity]; tidy.

Section Bootstrap.
Context {engine : Engine}.

Lemma localRequest_answers w m path ai v :
  apiInfo (api m) = Some ai ->
  answers w (local_call ai path None) v ->
  Tauri.localRequest path None w m = (Return v, invoked m (local_call ai path None)).
Proof.
  intros Hai (r & Hr & Hok & Hst & Hv).
  rewrite (localRequest_run w m path None ai Hai), Hr.
  unfold conclude. now rewrite Hok, Hst, Hv.
Qed.

Lemma localRequest_returned w m path ai v m' :
  apiInfo (api m) = Some ai ->
  Tauri.localRequest path None w m = (Return v, m') ->
  answers w (local_call ai path None) v /\ m' = invoked m (local_call ai path None).
Proof.
  intros Hai. rewrite (localRequest_run w m path None ai Hai).
  unfold conclude, answers.
  destruct (Tauri.invoke_fetch w _) as [r|]; [|discriminate].
  destruct (HttpResponse.success r) eqn:Hok; cbn [negb]; [|discriminate].
  destruct (HttpResponse.status r =? 200) eqn:Hst; cbn [negb]; [|discriminate].
  destruct (JSON_parse (HttpResponse.body r)) as [v'|] eqn:Hv; [|discriminate].
  intro H. injection H as -> <-. apply Z.eqb_eq in Hst.
  split; [|reflexivity]. now exists r.
Qed.

Lemma Array_find_isValorant l w m :
  Array_find Tauri.isValorant l w m =
    (match first_valorant l with
     | Some v => Return v
     | None => Throw TypeError
     end, m).
Proof.
  induction l as [|x l IH]; [reflexivity|].
  cbn [Array_find first_valorant].
  unfold bind at 1. unfold Tauri.isValorant at 1, matches_valorant.
  run_monad. destruct (get x "productId") as [p|]; [|reflexivity].
  destruct (loose_eq_string p "valorant"); [reflexivity|apply IH].
Qed.

Lemma first_valorant_none l :
  Forall (fun s => matches_valorant s = Some false) l ->
  first_valorant l = Some VUndefined.
Proof.
  induction 1 as [|x l Hx _ IH]; [reflexivity|].
  cbn [first_valorant]. now rewrite Hx.
Qed.

Lemma connectToSocket_run w m ai :
  apiInfo (api m) = Some ai ->
  Tauri.connectToSocket w m =
    match Tauri.WebSocket_connect w (Tauri.socketUrl ai) (Tauri.basicAuth ai) with
    | Some s =>
        (Return true,
         {| api := set_socket s (api m);
            trace := trace m ++ [Log LInfo "Connecting to local websocket...";
                                 WsConnect (Tauri.socketUrl ai) (Tauri.basicAuth ai)] |})
    | None =>
        (Return false,
         {| api := api m;
            trace := trace m ++ [Log LInfo "Connecting to local websocket...";
                                 WsConnect (Tauri.socketUrl ai) (Tauri.basicAuth ai)] |})
    end.
Proof.
  intro Hai. unfold Tauri.connectToSocket. run_monad. rewrite Hai.
  cbn [api trace]. rewrite trace_two.
  destruct (Tauri.WebSocket_connect w _ _); reflexivity.
Qed.

Lemma refresh_without_target w m ai cs rs en sessions at_ pu tk :
  apiInfo (api m) = Some ai ->
  answers w (local_call ai "chat/v1/session" None) cs ->
  answers w (local_call ai "product-session/v1/sessions" None) rs ->
  answers w (local_call ai "entitlements/v1/token" None) en ->
  get en "accessToken" = Some at_ ->
  get cs "puuid" = Some pu ->
  get en "token" = Some tk ->
  Object_values rs = Some sessions ->
  first_valorant sessions = Some VUndefined ->
  refresh w m =
    (Return false,
     {| api := set_entitlementToken tk
                 (set_playerUuid pu
                    (set_authToken at_
                       (set_entitlements en
                          (set_riotSessions rs (set_chatSession cs (api m))))));
        trace := trace m
                 ++ [Invoke (local_call ai "chat/v1/session" None);
                     Invoke (local_call ai "product-session/v1/sessions" None);
                     Invoke (local_call ai "entitlements/v1/token" None);
                     Log LInfo "VALORANT session not found."] |}).
Proof.
  intros Hai Hcs Hrs Hen Hat Hpu Htk Hvals Hfind.
  unfold refresh, after_chat.
  step_with (localRequest_answers w m "chat/v1/session" ai cs Hai Hcs).
  step_refl.
  erewrite bind_run;
    [|apply (localRequest_answers _ _ "product-session/v1/sessions" ai rs);
      [exact Hai|exact Hrs]]; tidy.
  step_refl.
  erewrite bind_run;
    [|apply (localRequest_answers _ _ "entitlements/v1/token" ai en);
      [exact Hai|exact Hen]]; tidy.
  step_refl. step_refl.
  step_prop Hat. step_refl. step_refl.
  step_prop Hpu. step_refl. step_refl.
  step_prop Htk. step_refl. step_refl.
  erewrite bind_run; [|rewrite Hvals; reflexivity]; tidy.
  erewrite bind_run; [|rewrite Array_find_isValorant, Hfind; reflexivity]; tidy.
  cbn [ToBoolean negb]. unfold Tauri.info. run_monad. tidy.
  rewrite <- !app_assoc. reflexivity.
Qed.

End Bootstrap.

Section TargetSession.
Context {engine : Engine}.

(** C2, amended.  Once credentials and routing are resolved and the three
    local requests have come back, a session list in which no entry has
    the product identifier [valorant] makes [setupClient] log "VALORANT
    session not found." and return [false].  The client version and the
    socket are left as they were and no socket is opened; the three
    snapshots and authToken, playerUuid and entitlementToken hold what
    this call fetched. *)
Theorem setupClient_without_target_session
    w m m1 ai cs rs en sessions at_ pu tk :
  resolve w m = (Return true, m1) ->
  apiInfo (api m1) = Some ai ->
  answers w (local_call ai "chat/v1/session" None) cs ->
  answers w (local_call ai "product-session/v1/sessions" None) rs ->
  answers w (local_call ai "entitlements/v1/token" None) en ->
  get en "accessToken" = Some at_ ->
  get cs "puuid" = Some pu ->
  get en "token" = Some tk ->
  Object_values rs = Some sessions ->
  Forall (fun s => matches_valorant s = Some false) sessions ->
  Tauri.setupClient w m =
    (Return false,
     {| api := set_entitlementToken tk
                 (set_playerUuid pu
                    (set_authToken at_
                       (set_entitlements en
                          (set_riotSessions rs (set_chatSession cs (api m1))))));
        trace := trace m1
                 ++ [Invoke (local_call ai "chat/v1/session" None);
                     Invoke (local_call ai "product-session/v1/sessions" None);
                     Invoke (local_call ai "entitlements/v1/token" None);
                     Log LInfo "VALORANT session not found."] |})
  /\ clientVersion (api (snd (Tauri.setupClient w m))) = clientVersion (api m)
  /\ socket (api (snd (Tauri.setupClient w m))) = socket (api m).
Proof.
  intros Hres Hai Hcs Hrs Hen Hat Hpu Htk Hvals Hnone.
  assert (Hrun : Tauri.setupClient w m = refresh w m1)
    by (now rewrite setupClient_split, Hres).
  rewrite Hrun.
  rewrite (refresh_without_target w m1 ai cs rs en sessions at_ pu tk)
    by (assumption || now apply first_valorant_none).
  pose proof (resolve_identity w m) as Hid. rewrite Hres in Hid.
  unfold same_session in Hid. cbn [snd] in Hid.
  split; [reflexivity|]. cbn. intuition congruence.
Qed.

End TargetSession.

Lemma setupClient_without_target_session_witness :
  Tauri.setupClient (engine := table_engine) (running_world launcher_only_body) fresh =
    (Return false,
     {| api := set_entitlementToken (VString "jwt-1")
                 (set_playerUuid (VString "player-1")
                    (set_authToken (VString "access-1")
                       (set_entitlements token_value
                          (set_riotSessions launcher_only_value
                             (set_chatSession chat_value
                                (api (snd (resolve (running_world launcher_only_body) fresh))))))));
        trace := trace (snd (resolve (running_world launcher_only_body) fresh))
                 ++ [Invoke (local_call (engine := table_engine) (lock_info good_lock)
                               "chat/v1/session" None);
                     Invoke (local_call (engine := table_engine) (lock_info good_lock)
                               "product-session/v1/sessions" None);
                     Invoke (local_call (engine := table_engine) (lock_info good_lock)
                               "entitlements/v1/token" None);
                     Log LInfo "VALORANT session not found."] |})
  /\ clientVersion (api (snd (Tauri.setupClient (engine := table_engine)
                                (running_world launcher_only_body) fresh)))
     = clientVersion (api fresh)
  /\ socket (api (snd (Tauri.setupClient (engine := table_engine)
                         (running_world launcher_only_body) fresh)))
     = socket (api fresh).
Proof.
  apply (setupClient_without_target_session (engine := table_engine)
           (running_world launcher_only_body) fresh
           (snd (resolve (running_world launcher_only_body) fresh))
           (lock_info good_lock) chat_value launcher_only_value token_value
           [launcher_session]).
  - reflexivity.
  - reflexivity.
  - exists (ok_response chat_body). repeat split; reflexivity.
  - exists (ok_response launcher_only_body). repeat split; reflexivity.
  - exists (ok_response token_body). repeat split; reflexivity.
  - reflexivity.
  - reflexivity.
  - reflexivity.
  - reflexivity.
  - repeat constructor.
Defined.

(** The claim C2 fails on a first bootstrap against a session list that
    holds the launcher only: the call returns [false], but authToken,
    playerUuid and entitlementToken, unset before, are now set. *)
Lemma setupClient_identity_set_without_target :
  Object_values launcher_only_value = Some [launcher_session]
  /\ matches_valorant (engine := table_engine) launcher_session = Some false
  /\ authToken (api fresh) = VUndefined
  /\ playerUuid (api fresh) = VUndefined
  /\ entitlementToken (api fresh) = VUndefined
  /\ fst (Tauri.setupClient (engine := table_engine)
            (running_world launcher_only_body) fresh) = Return false
  /\ riotSessions (api (snd (Tauri.setupClient (engine := table_engine)
                               (running_world launcher_only_body) fresh)))
     = launcher_only_value
  /\ authToken (api (snd (Tauri.setupClient (engine := table_engine)
                            (running_world launcher_only_body) fresh)))
     = VString "access-1"
  /\ playerUuid (api (snd (Tauri.setupClient (engine := table_engine)
                             (running_world launcher_only_body) fresh)))
     = VString "player-1"
  /\ entitlementToken (api (snd (Tauri.setupClient (engine := table_engine)
                                   (running_world launcher_only_body) fresh)))
     = VString "jwt-1".
Proof. repeat split; reflexivity. Qed.

(** ** Re-running [setupClient] on a resolved machine *)

Lemma keeps_refl m : keeps m m.
Proof.
  unfold keeps. repeat split. exists []. now rewrite app_nil_r.
Qed.

Lemma keeps_trans m1 m2 m3 : keeps m1 m2 -> keeps m2 m3 -> keeps m1 m3.
Proof.
  intros (Ha & Hr & Hs & e1 & Ht & He) (Ha' & Hr' & Hs' & e2 & Ht' & He').
  unfold keeps. repeat split; try congruence.
  exists (e1 ++ e2)%list. split.
  - now rewrite Ht', Ht, app_assoc.
  - rewrite forallb_app. now rewrite He, He'.
Qed.

Lemma preserves_ret {A} (a : A) : preserves (ret a).
Proof. intros w m. apply keeps_refl. Qed.

Lemma preserves_throw {A} e : preserves (throw (A := A) e).
Proof. intros w m. apply keeps_refl. Qed.

Lemma preserves_ask : preserves ask.
Proof. intros w m. apply keeps_refl. Qed.

Lemma preserves_static : preserves static.
Proof. intros w m. apply keeps_refl. Qed.

Lemma preserves_or_throw {A} e (o : option A) : preserves (or_throw e o).
Proof. destruct o; intros w m; apply keeps_refl. Qed.

Lemma preserves_bind {A B} (c : M Tauri.World A) (k : A -> M Tauri.World B) :
  preserves c -> (forall a, preserves (k a)) -> preserves (bind c k).
Proof.
  intros Hc Hk w m. unfold bind. specialize (Hc w m).
  destruct (c w m) as [[a|e] m1]; cbn [snd] in Hc; [|exact Hc].
  exact (keeps_trans _ _ _ Hc (Hk a w m1)).
Qed.

Lemma preserves_try_catch {A} (c : M Tauri.World A) h :
  preserves c -> (forall e, preserves (h e)) -> preserves (try_catch c h).
Proof.
  intros Hc Hh w m. unfold try_catch. specialize (Hc w m).
  destruct (c w m) as [[a|e] m1]; cbn [snd] in Hc; [exact Hc|].
  exact (keeps_trans _ _ _ Hc (Hh e w m1)).
Qed.

Lemma preserves_emit e : is_fs e = false -> preserves (emit e).
Proof.
  intros He w m. unfold keeps. cbn. repeat split.
  exists [e]. split; [reflexivity|]. cbn. now rewrite He.
Qed.

Lemma preserves_assign f :
  (forall a, apiInfo (f a) = apiInfo a /\ region (f a) = region a
             /\ shard (f a) = shard a) ->
  preserves (assign f).
Proof.
  intros Hf w m. destruct (Hf (api m)) as (Ha & Hr & Hs).
  unfold keeps. cbn. repeat split; try assumption.
  exists []. now rewrite app_nil_r.
Qed.

Create HintDb frame.
#[local] Hint Resolve preserves_ret preserves_throw preserves_ask preserves_static
  preserves_or_throw : frame.

Ltac frame :=
  repeat first
    [ apply preserves_bind; [|intro]
    | apply preserves_try_catch; [|intro]
    | apply preserves_emit; reflexivity
    | apply preserves_assign; intro; now repeat split
    | solve [auto with frame]
    | match goal with
      | |- preserves (if ?b then _ else _) => destruct b
      | |- preserves (match ?x with _ => _ end) => destruct x
      end ].

Section Cached.
Context {engine : Engine}.

Lemma preserves_fetch url options : preserves (Tauri.fetch url options).
Proof. unfold Tauri.fetch. frame. Qed.

Lemma preserves_localRequest path ri : preserves (Tauri.localRequest path ri).
Proof.
  unfold Tauri.localRequest, Tauri.error. frame.
Qed.

Lemma preserves_Array_find l : preserves (Array_find Tauri.isValorant l).
Proof.
  induction l as [|x l IH]; cbn [Array_find]; [frame|].
  apply preserves_bind; [unfold Tauri.isValorant, prop; frame|].
  intros [|]; [frame|exact IH].
Qed.

Lemma preserves_connectToSocket : preserves Tauri.connectToSocket.
Proof. unfold Tauri.connectToSocket, Tauri.error, Tauri.info. frame. Qed.

Lemma preserves_after_chat r : preserves (after_chat r).
Proof.
  unfold after_chat, Tauri.getSessions, Tauri.getEntitlementsToken,
    Tauri.info, Tauri.error, prop.
  repeat first
    [ apply preserves_localRequest
    | apply preserves_Array_find
    | apply preserves_connectToSocket
    | apply preserves_bind; [|intro]
    | apply preserves_emit; reflexivity
    | apply preserves_assign; intro; now repeat split
    | solve [auto with frame]
    | match goal with
      | |- preserves (if ?b then _ else _) => destruct b
      end ].
Qed.

Lemma preserves_refresh : preserves refresh.
Proof.
  unfold refresh, Tauri.getChatSession.
  apply preserves_bind; [apply preserves_localRequest|apply preserves_after_chat].
Qed.

Lemma or_throw_returned {A} e (o : option A) (w : Tauri.World) m a m' :
  or_throw e o w m = (Return a, m') -> o = Some a /\ m' = m.
Proof.
  destruct o as [x|]; cbv [or_throw ret throw]; intro H; [|discriminate H].
  injection H as -> ->. now split.
Qed.

Lemma localRequest_opens w m path ri ai :
  apiInfo (api m) = Some ai ->
  exists l,
    trace (snd (Tauri.localRequest path ri w m))
    = (trace m ++ Invoke (local_call ai path ri) :: l)%list.
Proof.
  intro Hai. rewrite (localRequest_run w m path ri ai Hai).
  unfold conclude, invoked.
  destruct (Tauri.invoke_fetch w _) as [r|]; [|now exists []].
  destruct (HttpResponse.success r); cbn [negb]; [|now exists []].
  destruct (HttpResponse.status r =? 200); cbn [negb].
  - destruct (JSON_parse _); now exists [].
  - eexists. cbn [snd trace]. now rewrite trace_two.
Qed.

Lemma refresh_opens w m ai :
  apiInfo (api m) = Some ai ->
  exists rest,
    trace (snd (refresh w m))
    = (trace m ++ Invoke (local_call ai "chat/v1/session" None) :: rest)%list.
Proof.
  intro Hai. unfold refresh, bind, Tauri.getChatSession.
  destruct (localRequest_opens w m "chat/v1/session" None ai Hai) as [l Hl].
  destruct (Tauri.localRequest "chat/v1/session" None w m) as [[r|e] m1];
    cbn [snd] in Hl; [|now exists l].
  destruct (preserves_after_chat r w m1) as (_ & _ & _ & evs & Ht & _).
  exists (l ++ evs)%list. rewrite Ht, Hl, <- app_assoc. reflexivity.
Qed.

Ltac open_bind H a m1 Ha :=
  apply bind_returns in H; destruct H as (a & m1 & Ha & H).

Ltac open_assign H :=
  let u := fresh "u" in
  let m1 := fresh "m" in
  let Hu := fresh "Hu" in
  open_bind H u m1 Hu; cbv [assign] in Hu; injection Hu as _ <-; tidy.

Ltac open_static H a :=
  let m1 := fresh "m" in
  let Hu := fresh "Hu" in
  open_bind H a m1 Hu; cbv [static] in Hu; injection Hu as <- <-; tidy.

Ltac open_option H v Hv :=
  let m1 := fresh "m" in
  open_bind H v m1 Hv; apply or_throw_returned in Hv; destruct Hv as [Hv ->].

Ltac open_request H ai Hai v Hv :=
  let m1 := fresh "m" in
  open_bind H v m1 Hv;
  apply (localRequest_returned _ _ _ ai) in Hv; [|exact Hai];
  destruct Hv as [Hv ->]; tidy.

(** A call that returns [true] has read everything from the answers of
    this very call. *)
Lemma refresh_returned_true w m m' ai :
  apiInfo (api m) = Some ai ->
  refresh w m = (Return true, m') ->
  exists cs rs en sessions session sock,
    answers w (local_call ai "chat/v1/session" None) cs
    /\ answers w (local_call ai "product-session/v1/sessions" None) rs
    /\ answers w (local_call ai "entitlements/v1/token" None) en
    /\ Object_values rs = Some sessions
    /\ first_valorant sessions = Some session
    /\ ToBoolean session = true
    /\ Tauri.WebSocket_connect w (Tauri.socketUrl ai) (Tauri.basicAuth ai) = Some sock
    /\ chatSession (api m') = cs
    /\ riotSessions (api m') = rs
    /\ entitlements (api m') = en
    /\ get en "accessToken" = Some (authToken (api m'))
    /\ get cs "puuid" = Some (playerUuid (api m'))
    /\ get en "token" = Some (entitlementToken (api m'))
    /\ get session "version" = Some (clientVersion (api m'))
    /\ socket (api m') = Some sock.
Proof.
  intros Hai H. unfold refresh, after_chat in H.
  unfold Tauri.getChatSession, Tauri.getSessions, Tauri.getEntitlementsToken in H.
  open_request H ai Hai cs Hcs.
  open_assign H.
  open_request H ai Hai rs Hrs.
  open_assign H.
  open_request H ai Hai en Hen.
  open_assign H.
  open_static H a1. unfold prop in H.
  open_option H at_ Hat. open_assign H.
  open_static H a2.
  open_option H pu Hpu. open_assign H.
  open_static H a3.
  open_option H tk Htk. open_assign H.
  open_static H a4.
  open_option H sessions Hvals.
  apply bind_returns in H. destruct H as (session & m1 & Hfind & H).
  rewrite Array_find_isValorant in Hfind.
  destruct (first_valorant sessions) as [found|] eqn:Hfirst; [|discriminate Hfind].
  injection Hfind as -> <-.
  destruct (ToBoolean session) eqn:Htruthy; cbn [negb] in H; [|discriminate H].
  open_option H ver Hver. open_assign H.
  apply bind_returns in H. destruct H as (connected & m2 & Hconn & H).
  rewrite (connectToSocket_run w _ ai) in Hconn by exact Hai.
  destruct (Tauri.WebSocket_connect w _ _) as [sock|] eqn:Hsock;
    injection Hconn as <- <-; cbn [negb] in H; [|discriminate H].
  cbv [Tauri.info bind emit ret] in H. injection H as <-.
  exists cs, rs, en, sessions, session, sock. tidy.
  repeat split; assumption.
Qed.

End Cached.

Section Rebootstrap.
Context {engine : Engine}.

(** C9, amended.  On a machine whose ApiInfo and region are already
    resolved, [setupClient] never touches the lock file or the log and
    leaves ApiInfo, region and shard as they are, whatever the outcome.
    Nothing else is taken from the cache: the call always opens with a
    new chat-session request, and when it returns [true] the three
    snapshots, the four identity fields and the socket are those that
    this call fetched, derived and opened. *)
Theorem setupClient_on_resolved w m ai :
  apiInfo (api m) = Some ai ->
  truthy (region (api m)) = true ->
  keeps m (snd (Tauri.setupClient w m))
  /\ (exists rest,
        trace (snd (Tauri.setupClient w m))
        = (trace m ++ Invoke (local_call ai "chat/v1/session" None) :: rest)%list)
  /\ (fst (Tauri.setupClient w m) = Return true ->
      exists cs rs en sessions session sock,
        answers w (local_call ai "chat/v1/session" None) cs
        /\ answers w (local_call ai "product-session/v1/sessions" None) rs
        /\ answers w (local_call ai "entitlements/v1/token" None) en
        /\ Object_values rs = Some sessions
        /\ first_valorant sessions = Some session
        /\ ToBoolean session = true
        /\ Tauri.WebSocket_connect w (Tauri.socketUrl ai) (Tauri.basicAuth ai) = Some sock
        /\ chatSession (api (snd (Tauri.setupClient w m))) = cs
        /\ riotSessions (api (snd (Tauri.setupClient w m))) = rs
        /\ entitlements (api (snd (Tauri.setupClient w m))) = en
        /\ get en "accessToken" = Some (authToken (api (snd (Tauri.setupClient w m))))
        /\ get cs "puuid" = Some (playerUuid (api (snd (Tauri.setupClient w m))))
        /\ get en "token" = Some (entitlementToken (api (snd (Tauri.setupClient w m))))
        /\ get session "version" = Some (clientVersion (api (snd (Tauri.setupClient w m))))
        /\ socket (api (snd (Tauri.setupClient w m))) = Some sock).
Proof.
  intros Hai Hregion.
  assert (Hrun : Tauri.setupClient w m = refresh w m)
    by (now rewrite setupClient_split, (resolve_cached w m ai Hai Hregion)).
  rewrite Hrun. split; [apply preserves_refresh|].
  split; [now apply refresh_opens|].
  intro Htrue. apply (refresh_returned_true w m _ ai Hai).
  destruct (refresh w m) as [o m']. cbn [fst] in Htrue. now subst o.
Qed.

End Rebootstrap.

Lemma setupClient_on_resolved_witness :
  keeps cached (snd (Tauri.setupClient (engine := table_engine)
                       (running_world both_sessions_body) cached))
  /\ (exists rest,
        trace (snd (Tauri.setupClient (engine := table_engine)
                      (running_world both_sessions_body) cached))
        = (trace cached
           ++ Invoke (local_call (engine := table_engine) (lock_info good_lock)
                        "chat/v1/session" None) :: rest)%list)
  /\ (exists cs rs en sessions session sock,
        answers (engine := table_engine) (running_world both_sessions_body)
          (local_call (engine := table_engine) (lock_info good_lock) "chat/v1/session" None) cs
        /\ answers (engine := table_engine) (running_world both_sessions_body)
             (local_call (engine := table_engine) (lock_info good_lock)
                "product-session/v1/sessions" None) rs
        /\ answers (engine := table_engine) (running_world both_sessions_body)
             (local_call (engine := table_engine) (lock_info good_lock)
                "entitlements/v1/token" None) en
        /\ Object_values rs = Some sessions
        /\ first_valorant (engine := table_engine) sessions = Some session
        /\ ToBoolean session = true
        /\ Tauri.WebSocket_connect (running_world both_sessions_body)
             (Tauri.socketUrl (engine := table_engine) (lock_info good_lock))
             (Tauri.basicAuth (lock_info good_lock)) = Some sock
        /\ chatSession (api (snd (Tauri.setupClient (engine := table_engine)
                                    (running_world both_sessions_body) cached))) = cs
        /\ riotSessions (api (snd (Tauri.setupClient (engine := table_engine)
                                     (running_world both_sessions_body) cached))) = rs
        /\ entitlements (api (snd (Tauri.setupClient (engine := table_engine)
                                     (running_world both_sessions_body) cached))) = en
        /\ get en "accessToken"
           = Some (authToken (api (snd (Tauri.setupClient (engine := table_engine)
                                          (running_world both_sessions_body) cached))))
        /\ get cs "puuid"
           = Some (playerUuid (api (snd (Tauri.setupClient (engine := table_engine)
                                           (running_world both_sessions_body) cached))))
        /\ get en "token"
           = Some (entitlementToken (api (snd (Tauri.setupClient (engine := table_engine)
                                                 (running_world both_sessions_body) cached))))
        /\ get session "version"
           = Some (clientVersion (api (snd (Tauri.setupClient (engine := table_engine)
                                              (running_world both_sessions_body) cached))))
        /\ socket (api (snd (Tauri.setupClient (engine := table_engine)
                               (running_world both_sessions_body) cached))) = Some sock).
Proof.
  destruct (setupClient_on_resolved (engine := table_engine)
              (running_world both_sessions_body) cached (lock_info good_lock)
              eq_refl eq_refl)
    as (Hkeeps & Hopens & Htrue).
  split; [exact Hkeeps|]. split; [exact Hopens|].
  apply Htrue. reflexivity.
Defined.

(** The claim C9 fails on a re-bootstrap that finds the launcher's
    session only: the call ends normally with [false], opens no socket
    and leaves the old client version and the old socket in place. *)
Lemma setupClient_cached_not_refreshed :
  apiInfo (api cached) = Some (lock_info good_lock)
  /\ truthy (region (api cached)) = true
  /\ fst (Tauri.setupClient (engine := table_engine)
            (running_world launcher_only_body) cached) = Return false
  /\ clientVersion (api (snd (Tauri.setupClient (engine := table_engine)
                                (running_world launcher_only_body) cached)))
     = clientVersion (api cached)
  /\ socket (api (snd (Tauri.setupClient (engine := table_engine)
                         (running_world launcher_only_body) cached)))
     = Some (Connection 7)
  /\ existsb is_ws (trace (snd (Tauri.setupClient (engine := table_engine)
                                  (running_world launcher_only_body) cached)))
     = false.
Proof. repeat split; reflexivity. Qed.

(** * Further properties *)

(** ** The locators, in full *)



Lemma all_chars_app p a b :
  all_chars p (a ++ b) = all_chars p a && all_chars p b.
Proof.
  induction a as [|c a IH]; [reflexivity|].
  cbn. now rewrite IH, andb_assoc.
Qed.

Lemma split_plain sep s :
  all_chars (fun c => negb (Ascii.eqb c sep)) s = true -> split sep s = [s].
Proof.
  induction s as [|c r IH]; intro H; [reflexivity|].
  cbn in H. apply andb_prop in H. destruct H as [Hc Hr].
  cbn. apply negb_true_iff in Hc. rewrite Hc, (IH Hr). reflexivity.
Qed.

Lemma split_field sep a rest :
  all_chars (fun c => negb (Ascii.eqb c sep)) a = true ->
  split sep (a ++ String sep rest) = a :: split sep rest.
Proof.
  induction a as [|c r IH]; intro H.
  - cbn. now rewrite Ascii.eqb_refl.
  - cbn in H. apply andb_prop in H. destruct H as [Hc Hr].
    cbn. apply negb_true_iff in Hc. rewrite Hc, (IH Hr). reflexivity.
Qed.

Lemma split_nonempty sep s : split sep s <> [].
Proof.
  destruct s as [|c r]; cbn; [discriminate|].
  destruct (Ascii.eqb c sep); [discriminate|].
  destruct (split sep r); discriminate.
Qed.

(** X2.  The lock-file format read back.  When the first four fields hold no
    colon, [parseLockFile] recovers them and takes as protocol the text
    between the fourth colon and the next one, or the end of the file;
    what follows a fifth colon is dropped.  So a file written as
    [a:b:c:d:e] with colon-free fields is read back field by field. *)
Theorem parseLockFile_reads_back w m a b c d rest :
  no_colon a = true -> no_colon b = true -> no_colon c = true -> no_colon d = true ->
  Tauri.files w (Tauri.lockFilePath w)
  = Some (a ++ ":" ++ b ++ ":" ++ c ++ ":" ++ d ++ ":" ++ rest) ->
  exists e more,
    split ":" rest = e :: more
    /\ apiInfo (api (snd (Tauri.parseLockFile w m)))
       = Some {| username := Some a;
                 processId := StringToNumber b;
                 port := StringToNumber c;
                 password := Some d;
                 protocol := Some e |}
    /\ (no_colon rest = true -> e = rest /\ more = []).
Proof.
  intros Ha Hb Hc Hd Hfile.
  destruct (split ":" rest) as [|e more] eqn:Hrest;
    [now apply split_nonempty in Hrest|].
  exists e, more. split; [reflexivity|].
  split.
  - rewrite (parseLockFile_run w m _ Hfile). cbn [snd api set_apiInfo apiInfo].
    unfold lock_info. cbn [append].
    change (a ++ String ":" (b ++ String ":" (c ++ String ":" (d ++ String ":" rest))))
      with (a ++ String ":" (b ++ String ":" (c ++ String ":" (d ++ String ":" rest)))).
    rewrite (split_field ":" a) by exact Ha.
    rewrite (split_field ":" b) by exact Hb.
    rewrite (split_field ":" c) by exact Hc.
    rewrite (split_field ":" d) by exact Hd.
    rewrite Hrest. reflexivity.
  - intro Hplain. unfold no_colon in Hplain.
    rewrite (split_plain ":" rest Hplain) in Hrest. now injection Hrest as <- <-.
Qed.

Lemma parseLockFile_reads_back_witness :
  exists e more,
    split ":" "https" = e :: more
    /\ apiInfo (api (snd (Tauri.parseLockFile (lock_world good_lock) fresh)))
       = Some {| username := Some "riot";
                 processId := StringToNumber "13472";
                 port := StringToNumber "52113";
                 password := Some "s3cr3t";
                 protocol := Some e |}
    /\ e = "https" /\ more = [].
Proof.
  destruct (parseLockFile_reads_back (lock_world good_lock) fresh
              "riot" "13472" "52113" "s3cr3t" "https"
              eq_refl eq_refl eq_refl eq_refl eq_refl)
    as (e & more & Hs & Hai & Hplain).
  exists e, more. split; [exact Hs|]. split; [exact Hai|].
  apply Hplain. reflexivity.
Defined.

(** ** The host pattern *)


Lemma lazy_extend_unfold p' caps s acc :
  lazy_extend p' caps s acc =
    match s with
    | EmptyString => None
    | String a r =>
        if is_line_terminator a then None
        else match exec_at p' r (caps ++ [(acc ++ str1 a)%string])%list with
             | Some res => Some res
             | None => lazy_extend p' caps r (acc ++ str1 a)
             end
    end.
Proof. destruct s; reflexivity. Qed.

Lemma append_assoc (a b c : string) : (a ++ b) ++ c = a ++ b ++ c.
Proof. induction a as [|x a IH]; cbn; [reflexivity|now rewrite IH]. Qed.

Lemma append_nil_r (a : string) : a ++ EmptyString = a.
Proof. induction a as [|x a IH]; cbn; [reflexivity|now rewrite IH]. Qed.






Lemma lazy_extend_exact p' caps t res : forall r acc,
  nonempty r = true ->
  all_chars shard_char r = true ->
  (forall r1 r2, r = r1 ++ r2 -> nonempty r1 = true -> nonempty r2 = true ->
                 forall g, exec_at p' (r2 ++ t) g = None) ->
  exec_at p' t (caps ++ [(acc ++ r)%string])%list = Some res ->
  lazy_extend p' caps (r ++ t) acc = Some res.
Proof.
  induction r as [|a r IH]; intros acc Hne Hchars Hfail Hend; [discriminate Hne|].
  cbn [all_chars] in Hchars. apply andb_prop in Hchars. destruct Hchars as [Ha Hr].
  unfold shard_char in Ha. apply negb_true_iff in Ha.
  cbn [append]. rewrite lazy_extend_unfold, Ha.
  destruct r as [|b r'].
  - cbn [append]. unfold str1. now rewrite Hend.
  - rewrite (Hfail (str1 a) (String b r')) by reflexivity.
    apply IH; [reflexivity|exact Hr| |].
    + intros r1 r2 E H1 H2 g.
      apply (Hfail (String a r1) r2); [cbn; now rewrite E|reflexivity|exact H2].
    + unfold str1. now rewrite append_assoc.
Qed.

Lemma exec_at_host_prefix rest :
  exec_at (compile Tauri.hostPattern) ("https://glz-" ++ rest) []
  = lazy_extend (Char "-" :: Char "1" :: Dot :: LazyDotPlus :: host_suffix) [] rest EmptyString.
Proof. reflexivity. Qed.

Lemma exec_at_host_suffix post g :
  exec_at host_suffix (".a.pvp.net" ++ post) g = Some (g, post).
Proof. reflexivity. Qed.

Lemma exec_at_dash_fails q r2 t g :
  nonempty r2 = true -> all_chars region_char r2 = true ->
  exec_at (Char "-" :: q) (r2 ++ t) g = None.
Proof.
  destruct r2 as [|x r2]; [discriminate|]. intros _ H.
  cbn [all_chars] in H. apply andb_prop in H. destruct H as [Hx _].
  unfold region_char in Hx. apply andb_prop in Hx. destruct Hx as [_ Hx].
  apply negb_true_iff in Hx. cbn. now rewrite Hx.
Qed.

Ltac crush_suffix :=
  repeat (cbn [exec_at append host_suffix compile];
          match goal with
          | |- None = None => reflexivity
          | |- context [if is_line_terminator ?c then _ else _] =>
              destruct (is_line_terminator c)
          | |- context [if Ascii.eqb ?c ?d then _ else _] =>
              let E := fresh "E" in
              destruct (Ascii.eqb c d) eqn:E; try discriminate E
          end).

(** The end of the pattern cannot match while fewer than ten characters
    stand before the literal [.a.pvp.net]. *)
Lemma exec_at_suffix_fails r2 post g :
  nonempty r2 = true -> (String.length r2 <= 9)%nat ->
  exec_at host_suffix (r2 ++ ".a.pvp.net" ++ post) g = None.
Proof.
  intros Hne Hlen.
  destruct r2 as [|c1 [|c2 [|c3 [|c4 [|c5 [|c6 [|c7 [|c8 [|c9 [|c10 r]]]]]]]]]];
    [discriminate Hne | .. | cbn in Hlen; lia];
    clear Hne Hlen; unfold host_suffix; cbn [compile]; crush_suffix.
Qed.

Lemma regex_match_skips p lit q t caps rest :
  p = (map Char (list_ascii_of_string lit) ++ q)%list ->
  exec_at p t [] = Some (caps, rest) ->
  forall pre,
    indexOf lit (pre ++ t) = Some (String.length pre) ->
    exists whole, regex_match p (pre ++ t) = Some (whole :: caps).
Proof.
  intros -> Ht. induction pre as [|c pre IH]; intro H.
  - rewrite regex_match_unfold. cbn [append]. rewrite Ht. eexists. reflexivity.
  - change (String c pre ++ t) with (String c (pre ++ t)) in *.
    rewrite indexOf_unfold in H. rewrite regex_match_unfold.
    destruct (String.prefix lit (String c (pre ++ t))) eqn:E; [discriminate H|].
    rewrite exec_at_literal by exact E.
    apply IH.
    destruct (indexOf lit (pre ++ t)) as [n|]; [|discriminate H].
    cbn in H. congruence.
Qed.

Lemma region_chars_shard r :
  all_chars region_char r = true -> all_chars shard_char r = true.
Proof.
  induction r as [|c r IH]; intro H; [reflexivity|].
  cbn [all_chars] in *. apply andb_prop in H. destruct H as [Hc Hrest].
  unfold region_char in Hc. apply andb_prop in Hc. destruct Hc as [Hc _].
  unfold shard_char at 1. now rewrite Hc, (IH Hrest).
Qed.

Lemma exec_at_host r s post :
  nonempty r = true -> all_chars region_char r = true ->
  nonempty s = true -> all_chars shard_char s = true ->
  (String.length s <= 10)%nat ->
  exec_at (compile Tauri.hostPattern)
    ("https://glz-" ++ r ++ "-1." ++ s ++ ".a.pvp.net" ++ post) []
  = Some ([r; s], post).
Proof.
  intros Hr Hrc Hs Hsc Hlen.
  rewrite exec_at_host_prefix.
  apply lazy_extend_exact; [exact Hr| | |].
  - now apply region_chars_shard.
  - intros r1 r2 E _ H2 g. apply exec_at_dash_fails; [exact H2|].
    rewrite E, all_chars_app in Hrc. now apply andb_prop in Hrc.
  - change (lazy_extend host_suffix [r] (s ++ ".a.pvp.net" ++ post) EmptyString
            = Some ([r; s], post)).
    apply lazy_extend_exact; [exact Hs|exact Hsc| |reflexivity].
    intros s1 s2 E H1 H2 g. apply exec_at_suffix_fails; [exact H2|].
    assert (String.length s = (String.length s1 + String.length s2)%nat)
      by (rewrite E; clear; induction s1; cbn; [reflexivity|now rewrite IHs1]).
    destruct s1; [discriminate H1|]. cbn in *. lia.
Qed.

(** X4.  Region and shard are read back verbatim.  When the first
    [https://glz-] of the log opens a host whose region holds no dash
    and whose shard has at most ten characters (neither holding a line
    break), [parseLogFile] caches exactly that region and that shard. *)
Theorem parseLogFile_reads_back w m pre r s post :
  nonempty r = true -> all_chars region_char r = true ->
  nonempty s = true -> all_chars shard_char s = true ->
  (String.length s <= 10)%nat ->
  Tauri.files w (Tauri.logFilePath w)
  = Some (pre ++ "https://glz-" ++ r ++ "-1." ++ s ++ ".a.pvp.net" ++ post) ->
  indexOf host_prefix (pre ++ "https://glz-" ++ r ++ "-1." ++ s ++ ".a.pvp.net" ++ post)
  = Some (String.length pre) ->
  Tauri.parseLogFile w m =
    (Return true,
     {| api := set_shard (Some s) (set_region (Some r) (api m));
        trace := trace m ++ [FsExists (Tauri.logFilePath w);
                             FsRead (Tauri.logFilePath w)] |}).
Proof.
  intros Hr Hrc Hs Hsc Hlen Hfile Hfirst.
  destruct (regex_match_skips (compile Tauri.hostPattern) host_prefix host_tail
              _ _ _ compile_hostPattern (exec_at_host r s post Hr Hrc Hs Hsc Hlen)
              pre Hfirst) as [whole Hm].
  now rewrite (parseLogFile_run w m _ [whole; r; s] Hfile Hm).
Qed.

Lemma parseLogFile_reads_back_witness :
  Tauri.parseLogFile
    (log_world ("LogHttp: " ++ "https://glz-latam-1" ++ "." ++ "br-2" ++ ".a.pvp.net" ++ "/x"))
    fresh
  = (Return true,
     {| api := set_shard (Some "br-2") (set_region (Some "latam") (api fresh));
        trace := trace fresh ++ [FsExists log_path; FsRead log_path] |}).
Proof.
  apply (parseLogFile_reads_back
           (log_world ("LogHttp: " ++ "https://glz-latam-1" ++ "." ++ "br-2" ++ ".a.pvp.net" ++ "/x"))
           fresh "LogHttp: " "latam" "br-2" "/x");
    try reflexivity.
  cbn. lia.
Defined.

(** ** The socket *)

Section SocketFacts.
Context {engine : Engine}.

(** X5.  [connectToSocket] never throws.  Without ApiInfo it makes no
    attempt.  With ApiInfo it makes exactly one attempt, at
    [wss://127.0.0.1:{port}] with the Basic header of the local API; it
    returns [true] and stores the new socket when the attempt succeeds,
    and returns [false] with every field as before, the old socket
    included, when the attempt is rejected. *)
Theorem connectToSocket_outcome w m :
  (apiInfo (api m) = None ->
   Tauri.connectToSocket w m =
     (Return false,
      {| api := api m;
         trace := trace m ++ [Log LError "API information is not available."] |}))
  /\ (forall ai,
        apiInfo (api m) = Some ai ->
        trace (snd (Tauri.connectToSocket w m))
        = (trace m ++ [Log LInfo "Connecting to local websocket...";
                       WsConnect (Tauri.socketUrl ai) (Tauri.basicAuth ai)])%list
        /\ Tauri.socketUrl ai = "wss://127.0.0.1:" ++ number_toString (port ai)
        /\ Tauri.basicAuth ai
           = [("Authorization", "Basic " ++ btoa ("riot:" ++ show (password ai)))]
        /\ (forall s,
              Tauri.WebSocket_connect w (Tauri.socketUrl ai) (Tauri.basicAuth ai) = Some s ->
              fst (Tauri.connectToSocket w m) = Return true
              /\ api (snd (Tauri.connectToSocket w m)) = set_socket s (api m))
        /\ (Tauri.WebSocket_connect w (Tauri.socketUrl ai) (Tauri.basicAuth ai) = None ->
            fst (Tauri.connectToSocket w m) = Return false
            /\ api (snd (Tauri.connectToSocket w m)) = api m)).
Proof.
  split.
  - intro H. unfold Tauri.connectToSocket. run_monad. now rewrite H.
  - intros ai Hai. rewrite (connectToSocket_run w m ai Hai).
    destruct (Tauri.WebSocket_connect w _ _) as [s|]; cbn.
    + do 3 (split; [reflexivity|]). split; [|discriminate].
      intros s' E. injection E as <-. now split.
    + do 3 (split; [reflexivity|]). split; [discriminate|]. now split.
Qed.

End SocketFacts.

Lemma connectToSocket_outcome_witness :
  Tauri.connectToSocket (engine := table_engine) socket_world fresh =
    (Return false,
     {| api := api fresh;
        trace := trace fresh ++ [Log LError "API information is not available."] |})
  /\ fst (Tauri.connectToSocket (engine := table_engine) socket_world cached) = Return true
  /\ api (snd (Tauri.connectToSocket (engine := table_engine) socket_world cached))
     = set_socket (Connection 8) cached_api
  /\ fst (Tauri.connectToSocket (engine := table_engine) (reply_world not_found) cached)
     = Return false
  /\ api (snd (Tauri.connectToSocket (engine := table_engine) (reply_world not_found) cached))
     = cached_api.
Proof.
  split; [apply (proj1 (connectToSocket_outcome (engine := table_engine) socket_world fresh));
          reflexivity|].
  destruct (proj2 (connectToSocket_outcome (engine := table_engine) socket_world cached)
              (lock_info good_lock) eq_refl) as (_ & _ & _ & Hopen & _).
  destruct (proj2 (connectToSocket_outcome (engine := table_engine)
                     (reply_world not_found) cached)
              (lock_info good_lock) eq_refl) as (_ & _ & _ & _ & Hrej).
  destruct (Hopen (Connection 8) eq_refl) as [H1 H2].
  destruct (Hrej eq_refl) as [H3 H4].
  repeat split; assumption.
Defined.

(** ** The shim *)

(** X6.  [fetch] hands the shell exactly one request, for the very URL it was
    given and with method GET unless the options name another, and it
    changes no field.  It returns a response only if the shell marked it
    successful: an unsuccessful one becomes the error "Unable to complete
    HTTP request.", whatever its status. *)
Theorem fetch_outcome w m url options :
  api (snd (Tauri.fetch url options w m)) = api m
  /\ trace (snd (Tauri.fetch url options w m))
     = (trace m ++ [Invoke (Tauri.fetch_request url options)])%list
  /\ Request.url (Tauri.fetch_request url options) = url
  /\ (options = None ->
      Tauri.fetch_request url options
      = {| Request.url := url; Request.headers := None;
           Request.method := "GET"; Request.body := None |})
  /\ (forall r,
        fst (Tauri.fetch url options w m) = Return r <->
        Tauri.invoke_fetch w (Tauri.fetch_request url options) = Some r
        /\ HttpResponse.success r = true)
  /\ (forall r,
        Tauri.invoke_fetch w (Tauri.fetch_request url options) = Some r ->
        HttpResponse.success r = false ->
        fst (Tauri.fetch url options w m)
        = Throw (Error "Unable to complete HTTP request.")).
Proof.
  assert (Hrun : Tauri.fetch url options w m =
            (match Tauri.invoke_fetch w (Tauri.fetch_request url options) with
             | Some r => if HttpResponse.success r then Return r
                         else Throw (Error "Unable to complete HTTP request.")
             | None => Throw (Rejected "invoke")
             end,
             {| api := api m;
                trace := trace m ++ [Invoke (Tauri.fetch_request url options)] |})).
  { unfold Tauri.fetch. run_monad. cbn [api trace].
    destruct (Tauri.invoke_fetch w _) as [r|]; [|reflexivity].
    destruct (HttpResponse.success r); reflexivity. }
  rewrite Hrun. cbn [fst snd api trace].
  split; [reflexivity|]. split; [reflexivity|]. split; [reflexivity|].
  split; [intros ->; reflexivity|]. split.
  - intro r. destruct (Tauri.invoke_fetch w _) as [r0|].
    + destruct (HttpResponse.success r0) eqn:Hok; split.
      * intro H. injection H as <-. now split.
      * intros [H _]. now injection H as <-.
      * discriminate.
      * intros [H Hr]. injection H as <-. congruence.
    + split; [discriminate|]. intros [H _]. discriminate H.
  - intros r Hr Hfail. now rewrite Hr, Hfail.
Qed.

Lemma fetch_outcome_witness :
  Tauri.fetch_request "https://127.0.0.1:52113/help" None
  = {| Request.url := "https://127.0.0.1:52113/help"; Request.headers := None;
       Request.method := "GET"; Request.body := None |}
  /\ fst (Tauri.fetch "https://127.0.0.1:52113/help" None
            (reply_world failed_transport) fresh)
     = Throw (Error "Unable to complete HTTP request.").
Proof.
  destruct (fetch_outcome (reply_world failed_transport) fresh
              "https://127.0.0.1:52113/help" None)
    as (_ & _ & _ & Hdef & _ & Hfail).
  split; [apply Hdef; reflexivity|].
  apply (Hfail failed_transport); reflexivity.
Defined.

(** ** The request methods, in full *)

Section RequestFacts.
Context {engine : Engine}.

(** X7.  With ApiInfo cached, [localRequest] returns a value exactly when the
    shell answers its request with a successful status-200 response whose
    body is JSON, and the value is the parsed body; the only trace it
    leaves is the request.  A 200 body that is not JSON makes it throw
    the SyntaxError of [JSON.parse]. *)
Theorem localRequest_returns_iff w m path ri ai :
  apiInfo (api m) = Some ai ->
  (forall v m',
     Tauri.localRequest path ri w m = (Return v, m') <->
     answers w (local_call ai path ri) v /\ m' = invoked m (local_call ai path ri))
  /\ (forall r,
        Tauri.invoke_fetch w (local_call ai path ri) = Some r ->
        HttpResponse.success r = true ->
        HttpResponse.status r = 200 ->
        JSON_parse (HttpResponse.body r) = None ->
        Tauri.localRequest path ri w m
        = (Throw SyntaxError, invoked m (local_call ai path ri))).
Proof.
  intro Hai. rewrite (localRequest_run w m path ri ai Hai).
  unfold conclude, answers. split.
  - intros v m'. split.
    + destruct (Tauri.invoke_fetch w _) as [r|]; [|discriminate].
      destruct (HttpResponse.success r) eqn:Hok; cbn [negb]; [|discriminate].
      destruct (HttpResponse.status r =? 200) eqn:Hst; cbn [negb]; [|discriminate].
      destruct (JSON_parse (HttpResponse.body r)) as [v'|] eqn:Hv; [|discriminate].
      intro H. injection H as -> <-. apply Z.eqb_eq in Hst.
      split; [|reflexivity]. now exists r.
    + intros [(r & Hr & Hok & Hst & Hv) ->].
      now rewrite Hr, Hok, Hst, Hv.
  - intros r Hr Hok Hst Hv. now rewrite Hr, Hok, Hst, Hv.
Qed.

(** X8.  Before any bootstrap the local API is unusable: with ApiInfo unset,
    [localRequest] and the four local accessors throw a TypeError and
    hand nothing to the shell. *)
Theorem local_calls_need_ApiInfo w m :
  apiInfo (api m) = None ->
  (forall path ri, Tauri.localRequest path ri w m = (Throw TypeError, m))
  /\ Tauri.getEntitlementsToken w m = (Throw TypeError, m)
  /\ Tauri.getChatSession w m = (Throw TypeError, m)
  /\ Tauri.getSessions w m = (Throw TypeError, m)
  /\ Tauri.getHelp w m = (Throw TypeError, m).
Proof.
  intro H.
  assert (Hl : forall path ri, Tauri.localRequest path ri w m = (Throw TypeError, m))
    by (intros; now apply localRequest_unset).
  repeat split; try apply Hl.
Qed.


End RequestFacts.

Lemma localRequest_returns_iff_witness :
  Tauri.localRequest (engine := table_engine) "chat/v1/session" None
    (running_world both_sessions_body) cached
  = (Return chat_value,
     invoked cached (local_call (engine := table_engine) (lock_info good_lock)
                       "chat/v1/session" None))
  /\ Tauri.localRequest (engine := table_engine) "help" None
       (reply_world (ok_response "<html>")) cached
     = (Throw SyntaxError,
        invoked cached (local_call (engine := table_engine) (lock_info good_lock)
                          "help" None)).
Proof.
  split.
  - apply (proj1 (localRequest_returns_iff (engine := table_engine)
                    (running_world both_sessions_body) cached
                    "chat/v1/session" None (lock_info good_lock) eq_refl)).
    split; [|reflexivity].
    exists (ok_response chat_body). repeat split; reflexivity.
  - apply (proj2 (localRequest_returns_iff (engine := table_engine)
                    (reply_world (ok_response "<html>")) cached
                    "help" None (lock_info good_lock) eq_refl)
             (ok_response "<html>")); reflexivity.
Defined.

Lemma local_calls_need_ApiInfo_witness :
  (forall path ri,
     Tauri.localRequest (engine := table_engine) path ri
       (running_world both_sessions_body) fresh = (Throw TypeError, fresh))
  /\ Tauri.getEntitlementsToken (engine := table_engine)
       (running_world both_sessions_body) fresh = (Throw TypeError, fresh)
  /\ Tauri.getChatSession (engine := table_engine)
       (running_world both_sessions_body) fresh = (Throw TypeError, fresh)
  /\ Tauri.getSessions (engine := table_engine)
       (running_world both_sessions_body) fresh = (Throw TypeError, fresh)
  /\ Tauri.getHelp (engine := table_engine)
       (running_world both_sessions_body) fresh = (Throw TypeError, fresh).
Proof.
  apply (local_calls_need_ApiInfo (engine := table_engine)
           (running_world both_sessions_body) fresh).
  reflexivity.
Defined.


(** ** The accessors *)



Section AccessorFacts.
Context {engine : Engine}.


Lemma sent_localRequest w m path ri ai :
  apiInfo (api m) = Some ai ->
  sent (Tauri.localRequest path ri) w m
  = (invocations (trace m) ++ [local_call ai path ri])%list.
Proof.
  intro Hai. unfold sent. rewrite (localRequest_run w m path ri ai Hai).
  apply conclude_invoked.
Qed.



(** X12.  Where each local accessor goes: with ApiInfo cached, each hands the
    shell exactly one GET for its fixed path on the loopback address,
    with the Basic header. *)
Theorem local_endpoints w m ai :
  apiInfo (api m) = Some ai ->
  sent Tauri.getEntitlementsToken w m
  = (invocations (trace m)
     ++ [get_request (Tauri.localUrl ai "entitlements/v1/token") (Tauri.basicAuth ai)])%list
  /\ sent Tauri.getChatSession w m
     = (invocations (trace m)
        ++ [get_request (Tauri.localUrl ai "chat/v1/session") (Tauri.basicAuth ai)])%list
  /\ sent Tauri.getSessions w m
     = (invocations (trace m)
        ++ [get_request (Tauri.localUrl ai "product-session/v1/sessions")
              (Tauri.basicAuth ai)])%list
  /\ sent Tauri.getHelp w m
     = (invocations (trace m)
        ++ [get_request (Tauri.localUrl ai "help") (Tauri.basicAuth ai)])%list.
Proof.
  intro Hai.
  unfold Tauri.getEntitlementsToken, Tauri.getChatSession, Tauri.getSessions,
    Tauri.getHelp.
  rewrite !(sent_localRequest w m _ None ai Hai).
  repeat split.
Qed.

(** X13.  The request methods and every accessor over them only read the
    class: whatever the shell answers and whether they return or throw,
    every static field is afterwards what it was. *)
Theorem accessors_read_only w m path ri args u h id :
  api (snd (Tauri.localRequest path ri w m)) = api m
  /\ api (snd (Tauri.remoteRequest path ri args w m)) = api m
  /\ api (snd (Tauri.getEntitlementsToken w m)) = api m
  /\ api (snd (Tauri.getChatSession w m)) = api m
  /\ api (snd (Tauri.getSessions w m)) = api m
  /\ api (snd (Tauri.getHelp w m)) = api m
  /\ api (snd (Tauri.getCurrentGame u w m)) = api m
  /\ api (snd (Tauri.getGameData id w m)) = api m
  /\ api (snd (Tauri.getCurrentPregame u w m)) = api m
  /\ api (snd (Tauri.getPregameData id w m)) = api m
  /\ api (snd (Tauri.getMatchHistory u h w m)) = api m
  /\ api (snd (Tauri.getMatchData id w m)) = api m.
Proof.
  assert (Hl : forall path ri, api (snd (Tauri.localRequest path ri w m)) = api m).
  { intros p r. destruct (apiInfo (api m)) as [ai|] eqn:Hai.
    - rewrite (localRequest_run w m p r ai Hai).
      now destruct (conclude_frame "Client"
                      (Tauri.invoke_fetch w (local_call ai p r))
                      (invoked m (local_call ai p r))) as [-> _].
    - now rewrite localRequest_unset. }
  assert (Hr : forall path ri args,
            api (snd (Tauri.remoteRequest path ri args w m)) = api m).
  { intros p r a. rewrite remoteRequest_run.
    now destruct (conclude_frame "Server"
                    (Tauri.invoke_fetch w (remote_call (api m) p r a))
                    (invoked m (remote_call (api m) p r a))) as [-> _]. }
  assert (Hplayer : forall k : API -> M Tauri.World value,
            snd (bind static k w m) = snd (k (api m) w m)) by reflexivity.
  unfold Tauri.getEntitlementsToken, Tauri.getChatSession, Tauri.getSessions,
    Tauri.getHelp, Tauri.getCurrentGame, Tauri.getCurrentPregame, Tauri.getGameData,
    Tauri.getPregameData, Tauri.getMatchData, Tauri.getMatchHistory.
  rewrite !Hplayer.
  repeat split; (apply Hl || apply Hr).
Qed.


End AccessorFacts.

Lemma local_endpoints_witness :
  sent (Tauri.getEntitlementsToken (engine := table_engine)) (reply_world not_found) cached
  = [get_request "https://127.0.0.1:52113/entitlements/v1/token"
       [("Authorization", "Basic cmlvdDpzM2NyM3Q=")]]
  /\ sent (Tauri.getChatSession (engine := table_engine)) (reply_world not_found) cached
     = [get_request "https://127.0.0.1:52113/chat/v1/session"
          [("Authorization", "Basic cmlvdDpzM2NyM3Q=")]]
  /\ sent (Tauri.getSessions (engine := table_engine)) (reply_world not_found) cached
     = [get_request "https://127.0.0.1:52113/product-session/v1/sessions"
          [("Authorization", "Basic cmlvdDpzM2NyM3Q=")]]
  /\ sent (Tauri.getHelp (engine := table_engine)) (reply_world not_found) cached
     = [get_request "https://127.0.0.1:52113/help"
          [("Authorization", "Basic cmlvdDpzM2NyM3Q=")]].
Proof.
  apply (local_endpoints (engine := table_engine) (reply_world not_found) cached
           (lock_info good_lock)).
  reflexivity.
Defined.


(** ** [setupClient], path by path *)

Section BootstrapFacts.
Context {engine : Engine}.

Lemma first_valorant_found before session after :
  Forall (fun s => matches_valorant s = Some false) before ->
  matches_valorant session = Some true ->
  first_valorant (before ++ session :: after) = Some session.
Proof.
  intros Hb Hs. induction Hb as [|x l Hx _ IH]; cbn [app first_valorant].
  - now rewrite Hs.
  - now rewrite Hx.
Qed.

Lemma first_valorant_throws before session after :
  Forall (fun s => matches_valorant s = Some false) before ->
  matches_valorant session = None ->
  first_valorant (before ++ session :: after) = None.
Proof.
  intros Hb Hs. induction Hb as [|x l Hx _ IH]; cbn [app first_valorant].
  - now rewrite Hs.
  - now rewrite Hx.
Qed.

Lemma matches_valorant_object session :
  matches_valorant session = Some true ->
  ToBoolean session = true /\ exists ver, get session "version" = Some ver.
Proof.
  unfold matches_valorant.
  destruct session; cbn; try discriminate; intros _; split; eauto.
Qed.

(** After the three requests and the three identity reads, what is left
    of the method depends on the search of the session list only. *)
Lemma refresh_after_requests w m ai cs rs en sessions at_ pu tk :
  apiInfo (api m) = Some ai ->
  answers w (local_call ai "chat/v1/session" None) cs ->
  answers w (local_call ai "product-session/v1/sessions" None) rs ->
  answers w (local_call ai "entitlements/v1/token" None) en ->
  get en "accessToken" = Some at_ ->
  get cs "puuid" = Some pu ->
  get en "token" = Some tk ->
  Object_values rs = Some sessions ->
  let a3 := set_entitlementToken tk
              (set_playerUuid pu
                 (set_authToken at_
                    (set_entitlements en
                       (set_riotSessions rs (set_chatSession cs (api m)))))) in
  let t3 := (trace m
             ++ [Invoke (local_call ai "chat/v1/session" None);
                 Invoke (local_call ai "product-session/v1/sessions" None);
                 Invoke (local_call ai "entitlements/v1/token" None)])%list in
  refresh w m =
    match first_valorant sessions with
    | None => (Throw TypeError, {| api := a3; trace := t3 |})
    | Some v =>
        if ToBoolean v then
          match get v "version" with
          | None => (Throw TypeError, {| api := a3; trace := t3 |})
          | Some ver =>
              match Tauri.WebSocket_connect w (Tauri.socketUrl ai) (Tauri.basicAuth ai) with
              | Some sock =>
                  (Return true,
                   {| api := set_socket sock (set_clientVersion ver a3);
                      trace := t3 ++ [Log LInfo "Connecting to local websocket...";
                                      WsConnect (Tauri.socketUrl ai) (Tauri.basicAuth ai);
                                      Log LInfo "API setup is complete!"] |})
              | None =>
                  (Return false,
                   {| api := set_clientVersion ver a3;
                      trace := t3 ++ [Log LInfo "Connecting to local websocket...";
                                      WsConnect (Tauri.socketUrl ai) (Tauri.basicAuth ai);
                                      Log LError "Failed to connect to the local API socket."] |})
              end
          end
        else
          (Return false,
           {| api := a3; trace := t3 ++ [Log LInfo "VALORANT session not found."] |})
    end.
Proof.
  intros Hai Hcs Hrs Hen Hat Hpu Htk Hvals a3 t3. subst a3 t3.
  unfold refresh, after_chat.
  step_with (localRequest_answers w m "chat/v1/session" ai cs Hai Hcs).
  step_refl.
  erewrite bind_run;
    [|apply (localRequest_answers _ _ "product-session/v1/sessions" ai rs);
      [exact Hai|exact Hrs]]; tidy.
  step_refl.
  erewrite bind_run;
    [|apply (localRequest_answers _ _ "entitlements/v1/token" ai en);
      [exact Hai|exact Hen]]; tidy.
  step_refl. step_refl.
  step_prop Hat. step_refl. step_refl.
  step_prop Hpu. step_refl. step_refl.
  step_prop Htk. step_refl. step_refl.
  erewrite bind_run; [|rewrite Hvals; reflexivity]; tidy.
  rewrite !trace_two, <- !app_assoc. cbn [app].
  unfold bind at 1. rewrite Array_find_isValorant.
  destruct (first_valorant sessions) as [v|]; [|reflexivity].
  destruct (ToBoolean v); cbn [negb].
  - unfold bind at 1, prop at 1.
    destruct (get v "version") as [ver|]; [|reflexivity].
    cbn [or_throw]. unfold ret at 1. step_refl.
    unfold bind at 1.
    rewrite (connectToSocket_run w _ ai) by exact Hai.
    destruct (Tauri.WebSocket_connect w _ _) as [sock|]; cbn [negb];
      unfold Tauri.info, Tauri.error; run_monad; tidy;
      rewrite <- !app_assoc; reflexivity.
  - unfold Tauri.info. run_monad. tidy. rewrite <- !app_assoc. reflexivity.
Qed.

(** X15.  A first bootstrap or a later one that goes through: once credentials
    and routing are resolved, the three requests answered and the socket
    accepted, [setupClient] returns [true]; the client version is that of
    the first session, in the order of the list, whose product
    identifier is [valorant], later ones being ignored; the socket is the
    one just opened. *)
Theorem setupClient_succeeds
    w m m1 ai cs rs en before session after at_ pu tk ver sock :
  resolve w m = (Return true, m1) ->
  apiInfo (api m1) = Some ai ->
  answers w (local_call ai "chat/v1/session" None) cs ->
  answers w (local_call ai "product-session/v1/sessions" None) rs ->
  answers w (local_call ai "entitlements/v1/token" None) en ->
  get en "accessToken" = Some at_ ->
  get cs "puuid" = Some pu ->
  get en "token" = Some tk ->
  Object_values rs = Some (before ++ session :: after)%list ->
  Forall (fun s => matches_valorant s = Some false) before ->
  matches_valorant session = Some true ->
  get session "version" = Some ver ->
  Tauri.WebSocket_connect w (Tauri.socketUrl ai) (Tauri.basicAuth ai) = Some sock ->
  Tauri.setupClient w m =
    (Return true,
     {| api := set_socket sock
                 (set_clientVersion ver
                    (set_entitlementToken tk
                       (set_playerUuid pu
                          (set_authToken at_
                             (set_entitlements en
                                (set_riotSessions rs (set_chatSession cs (api m1))))))));
        trace := trace m1
                 ++ [Invoke (local_call ai "chat/v1/session" None);
                     Invoke (local_call ai "product-session/v1/sessions" None);
                     Invoke (local_call ai "entitlements/v1/token" None);
                     Log LInfo "Connecting to local websocket...";
                     WsConnect (Tauri.socketUrl ai) (Tauri.basicAuth ai);
                     Log LInfo "API setup is complete!"] |}).
Proof.
  intros Hres Hai Hcs Hrs Hen Hat Hpu Htk Hvals Hbefore Hsession Hver Hsock.
  rewrite setupClient_split, Hres.
  rewrite (refresh_after_requests w m1 ai cs rs en _ at_ pu tk
             Hai Hcs Hrs Hen Hat Hpu Htk Hvals).
  rewrite (first_valorant_found before session after Hbefore Hsession).
  destruct (matches_valorant_object session Hsession) as [-> _].
  rewrite Hver, Hsock, <- app_assoc. reflexivity.
Qed.

(** X16.  A rejected socket comes last.  When everything but the socket goes
    through, [setupClient] returns [false] after logging "Failed to
    connect to the local API socket.": the snapshots and the whole
    identity, client version included, are those of this call, and the
    socket is the one from before. *)
Theorem setupClient_socket_rejected
    w m m1 ai cs rs en before session after at_ pu tk ver :
  resolve w m = (Return true, m1) ->
  apiInfo (api m1) = Some ai ->
  answers w (local_call ai "chat/v1/session" None) cs ->
  answers w (local_call ai "product-session/v1/sessions" None) rs ->
  answers w (local_call ai "entitlements/v1/token" None) en ->
  get en "accessToken" = Some at_ ->
  get cs "puuid" = Some pu ->
  get en "token" = Some tk ->
  Object_values rs = Some (before ++ session :: after)%list ->
  Forall (fun s => matches_valorant s = Some false) before ->
  matches_valorant session = Some true ->
  get session "version" = Some ver ->
  Tauri.WebSocket_connect w (Tauri.socketUrl ai) (Tauri.basicAuth ai) = None ->
  Tauri.setupClient w m =
    (Return false,
     {| api := set_clientVersion ver
                 (set_entitlementToken tk
                    (set_playerUuid pu
                       (set_authToken at_
                          (set_entitlements en
                             (set_riotSessions rs (set_chatSession cs (api m1)))))));
        trace := trace m1
                 ++ [Invoke (local_call ai "chat/v1/session" None);
                     Invoke (local_call ai "product-session/v1/sessions" None);
                     Invoke (local_call ai "entitlements/v1/token" None);
                     Log LInfo "Connecting to local websocket...";
                     WsConnect (Tauri.socketUrl ai) (Tauri.basicAuth ai);
                     Log LError "Failed to connect to the local API socket."] |})
  /\ socket (api (snd (Tauri.setupClient w m))) = socket (api m).
Proof.
  intros Hres Hai Hcs Hrs Hen Hat Hpu Htk Hvals Hbefore Hsession Hver Hsock.
  rewrite setupClient_split, Hres.
  rewrite (refresh_after_requests w m1 ai cs rs en _ at_ pu tk
             Hai Hcs Hrs Hen Hat Hpu Htk Hvals).
  rewrite (first_valorant_found before session after Hbefore Hsession).
  destruct (matches_valorant_object session Hsession) as [-> _].
  rewrite Hver, Hsock, <- app_assoc. split; [reflexivity|].
  pose proof (resolve_identity w m) as Hid. rewrite Hres in Hid.
  unfold same_session in Hid. cbn [snd] in Hid. cbn. intuition congruence.
Qed.

(** X17.  A [null] entry in the session list breaks the bootstrap.  When the
    search reaches an entry that is [null] before it reaches a
    [valorant] one, [setupClient] neither returns [true] nor [false]: it
    throws a TypeError, with the snapshots, authToken, playerUuid and
    entitlementToken already replaced and no socket attempted. *)
Theorem setupClient_null_session
    w m m1 ai cs rs en before after at_ pu tk :
  resolve w m = (Return true, m1) ->
  apiInfo (api m1) = Some ai ->
  answers w (local_call ai "chat/v1/session" None) cs ->
  answers w (local_call ai "product-session/v1/sessions" None) rs ->
  answers w (local_call ai "entitlements/v1/token" None) en ->
  get en "accessToken" = Some at_ ->
  get cs "puuid" = Some pu ->
  get en "token" = Some tk ->
  Object_values rs = Some (before ++ VNull :: after)%list ->
  Forall (fun s => matches_valorant s = Some false) before ->
  Tauri.setupClient w m =
    (Throw TypeError,
     {| api := set_entitlementToken tk
                 (set_playerUuid pu
                    (set_authToken at_
                       (set_entitlements en
                          (set_riotSessions rs (set_chatSession cs (api m1))))));
        trace := trace m1
                 ++ [Invoke (local_call ai "chat/v1/session" None);
                     Invoke (local_call ai "product-session/v1/sessions" None);
                     Invoke (local_call ai "entitlements/v1/token" None)] |}).
Proof.
  intros Hres Hai Hcs Hrs Hen Hat Hpu Htk Hvals Hbefore.
  rewrite setupClient_split, Hres.
  rewrite (refresh_after_requests w m1 ai cs rs en _ at_ pu tk
             Hai Hcs Hrs Hen Hat Hpu Htk Hvals).
  now rewrite (first_valorant_throws before VNull after Hbefore eq_refl).
Qed.

(** X18.  Without a lock file and without cached ApiInfo, [setupClient] ends
    at once: it returns [false], reads no file, does not look for the
    log, hands nothing to the shell and changes no field. *)
Theorem setupClient_lock_missing w m :
  apiInfo (api m) = None ->
  Tauri.files w (Tauri.lockFilePath w) = None ->
  Tauri.setupClient w m =
    (Return false,
     {| api := api m;
        trace := trace m ++ [FsExists (Tauri.lockFilePath w);
                             Log LInfo "'lockfile' does not exist. Is VALORANT open?"] |}).
Proof.
  intros Hai Hlock. rewrite setupClient_split.
  unfold resolve. cbv [bind static ret]. rewrite Hai.
  now rewrite (parseLockFile_absent w m Hlock).
Qed.

(** X19.  A bootstrap that fails on the log keeps the credentials.  When the
    lock file is read but the log is missing, or holds no host yet,
    [setupClient] returns [false] without any request, and ApiInfo stays
    cached from the lock file just read: the next call will not read the
    lock file again. *)
Theorem setupClient_log_failure w m text :
  apiInfo (api m) = None ->
  truthy (region (api m)) = false ->
  Tauri.files w (Tauri.lockFilePath w) = Some text ->
  (Tauri.files w (Tauri.logFilePath w) = None ->
   Tauri.setupClient w m =
     (Return false,
      {| api := set_apiInfo (lock_info text) (api m);
         trace := trace m
                  ++ [FsExists (Tauri.lockFilePath w); FsRead (Tauri.lockFilePath w);
                      FsExists (Tauri.logFilePath w);
                      Log LInfo "'ShooterGame.log' does not exist. Is VALORANT open?"] |}))
  /\ (forall log,
        Tauri.files w (Tauri.logFilePath w) = Some log ->
        string_match log Tauri.hostPattern = None ->
        Tauri.setupClient w m =
          (Return false,
           {| api := set_apiInfo (lock_info text) (api m);
              trace := trace m
                       ++ [FsExists (Tauri.lockFilePath w); FsRead (Tauri.lockFilePath w);
                           FsExists (Tauri.logFilePath w); FsRead (Tauri.logFilePath w);
                           Log LError "Failed to find the region and shard."] |})).
Proof.
  intros Hai Hregion Hlock.
  split.
  - intro Hlog. rewrite setupClient_split.
    unfold resolve. cbv [bind static ret]. rewrite Hai.
    rewrite (parseLockFile_run w m text Hlock). cbn [negb api region set_apiInfo].
    rewrite Hregion. cbn [negb].
    rewrite parseLogFile_absent by exact Hlog. cbn [negb api trace].
    now rewrite <- app_assoc.
  - intros log Hlog Hnone. rewrite setupClient_split.
    unfold resolve. cbv [bind static ret]. rewrite Hai.
    rewrite (parseLockFile_run w m text Hlock). cbn [negb api region set_apiInfo].
    rewrite Hregion. cbn [negb].
    rewrite (parseLogFile_no_match _ _ log Hlog Hnone). cbn [negb api trace].
    now rewrite <- app_assoc.
Qed.

(** X20.  A failed request is not a [false]: on a resolved machine, a
    chat-session answer whose status is not 200 makes [setupClient] throw
    the error of the request method, before any field is assigned. *)
Theorem setupClient_request_failure w m ai r :
  apiInfo (api m) = Some ai ->
  truthy (region (api m)) = true ->
  Tauri.invoke_fetch w (local_call ai "chat/v1/session" None) = Some r ->
  HttpResponse.success r = true ->
  HttpResponse.status r <> 200 ->
  Tauri.setupClient w m =
    (Throw (Error "Failed to fetch data."),
     {| api := api m;
        trace := trace m
                 ++ [Invoke (local_call ai "chat/v1/session" None);
                     Log LError ("Client did not return a good response: "
                                   ++ Z_toString (HttpResponse.status r) ++ " "
                                   ++ HttpResponse.body r)] |}).
Proof.
  intros Hai Hregion Hr Hok Hst.
  rewrite setupClient_split, (resolve_cached w m ai Hai Hregion).
  unfold refresh, bind, Tauri.getChatSession.
  rewrite (localRequest_run w m _ None ai Hai), Hr.
  unfold conclude, invoked. rewrite Hok. cbn [negb].
  apply Z.eqb_neq in Hst. rewrite Hst. cbn [negb api trace].
  now rewrite trace_two.
Qed.

End BootstrapFacts.

Lemma setupClient_succeeds_witness :
  Tauri.setupClient (engine := table_engine) (running_world both_sessions_body) fresh =
    (Return true,
     {| api := set_socket (Connection 8)
                 (set_clientVersion (VString "release-08.11")
                    (set_entitlementToken (VString "jwt-1")
                       (set_playerUuid (VString "player-1")
                          (set_authToken (VString "access-1")
                             (set_entitlements token_value
                                (set_riotSessions both_sessions_value
                                   (set_chatSession chat_value
                                      (api (snd (resolve (running_world both_sessions_body)
                                                   fresh))))))))));
        trace := trace (snd (resolve (running_world both_sessions_body) fresh))
                 ++ [Invoke (local_call (engine := table_engine) (lock_info good_lock)
                               "chat/v1/session" None);
                     Invoke (local_call (engine := table_engine) (lock_info good_lock)
                               "product-session/v1/sessions" None);
                     Invoke (local_call (engine := table_engine) (lock_info good_lock)
                               "entitlements/v1/token" None);
                     Log LInfo "Connecting to local websocket...";
                     WsConnect (Tauri.socketUrl (engine := table_engine) (lock_info good_lock))
                       (Tauri.basicAuth (lock_info good_lock));
                     Log LInfo "API setup is complete!"] |}).
Proof.
  apply (setupClient_succeeds (engine := table_engine)
           (running_world both_sessions_body) fresh
           (snd (resolve (running_world both_sessions_body) fresh))
           (lock_info good_lock) chat_value both_sessions_value token_value
           [launcher_session] game_session []).
  - reflexivity.
  - reflexivity.
  - exists (ok_response chat_body). repeat split; reflexivity.
  - exists (ok_response both_sessions_body). repeat split; reflexivity.
  - exists (ok_response token_body). repeat split; reflexivity.
  - reflexivity.
  - reflexivity.
  - reflexivity.
  - reflexivity.
  - repeat constructor.
  - reflexivity.
  - reflexivity.
  - reflexivity.
Defined.

Lemma setupClient_socket_rejected_witness :
  Tauri.setupClient (engine := table_engine) (socketless_world both_sessions_body) cached =
    (Return false,
     {| api := set_clientVersion (VString "release-08.11")
                 (set_entitlementToken (VString "jwt-1")
                    (set_playerUuid (VString "player-1")
                       (set_authToken (VString "access-1")
                          (set_entitlements token_value
                             (set_riotSessions both_sessions_value
                                (set_chatSession chat_value (api cached)))))));
        trace := trace cached
                 ++ [Invoke (local_call (engine := table_engine) (lock_info good_lock)
                               "chat/v1/session" None);
                     Invoke (local_call (engine := table_engine) (lock_info good_lock)
                               "product-session/v1/sessions" None);
                     Invoke (local_call (engine := table_engine) (lock_info good_lock)
                               "entitlements/v1/token" None);
                     Log LInfo "Connecting to local websocket...";
                     WsConnect (Tauri.socketUrl (engine := table_engine) (lock_info good_lock))
                       (Tauri.basicAuth (lock_info good_lock));
                     Log LError "Failed to connect to the local API socket."] |})
  /\ socket (api (snd (Tauri.setupClient (engine := table_engine)
                         (socketless_world both_sessions_body) cached)))
     = Some (Connection 7).
Proof.
  apply (setupClient_socket_rejected (engine := table_engine)
           (socketless_world both_sessions_body) cached cached
           (lock_info good_lock) chat_value both_sessions_value token_value
           [launcher_session] game_session []).
  - reflexivity.
  - reflexivity.
  - exists (ok_response chat_body). repeat split; reflexivity.
  - exists (ok_response both_sessions_body). repeat split; reflexivity.
  - exists (ok_response token_body). repeat split; reflexivity.
  - reflexivity.
  - reflexivity.
  - reflexivity.
  - reflexivity.
  - repeat constructor.
  - reflexivity.
  - reflexivity.
  - reflexivity.
Defined.

Lemma setupClient_null_session_witness :
  Tauri.setupClient (engine := null_entry_engine) (running_world null_entry_body) cached =
    (Throw TypeError,
     {| api := set_entitlementToken (VString "jwt-1")
                 (set_playerUuid (VString "player-1")
                    (set_authToken (VString "access-1")
                       (set_entitlements token_value
                          (set_riotSessions null_entry_value
                             (set_chatSession chat_value (api cached))))));
        trace := trace cached
                 ++ [Invoke (local_call (engine := null_entry_engine) (lock_info good_lock)
                               "chat/v1/session" None);
                     Invoke (local_call (engine := null_entry_engine) (lock_info good_lock)
                               "product-session/v1/sessions" None);
                     Invoke (local_call (engine := null_entry_engine) (lock_info good_lock)
                               "entitlements/v1/token" None)] |}).
Proof.
  apply (setupClient_null_session (engine := null_entry_engine)
           (running_world null_entry_body) cached cached
           (lock_info good_lock) chat_value null_entry_value token_value
           [] [game_session]).
  - reflexivity.
  - reflexivity.
  - exists (ok_response chat_body). repeat split; reflexivity.
  - exists (ok_response null_entry_body). repeat split; reflexivity.
  - exists (ok_response token_body). repeat split; reflexivity.
  - reflexivity.
  - reflexivity.
  - reflexivity.
  - reflexivity.
  - constructor.
Defined.

Lemma setupClient_lock_missing_witness :
  Tauri.setupClient (engine := table_engine) (log_world eu_then_na_log) fresh =
    (Return false,
     {| api := api fresh;
        trace := trace fresh
                 ++ [FsExists (Tauri.lockFilePath (log_world eu_then_na_log));
                     Log LInfo "'lockfile' does not exist. Is VALORANT open?"] |}).
Proof.
  apply (setupClient_lock_missing (engine := table_engine)
           (log_world eu_then_na_log) fresh); reflexivity.
Defined.

Lemma setupClient_log_failure_witness :
  Tauri.setupClient (engine := table_engine) lock_only_world fresh =
    (Return false,
     {| api := set_apiInfo (lock_info good_lock) (api fresh);
        trace := trace fresh
                 ++ [FsExists lock_path; FsRead lock_path; FsExists log_path;
                     Log LInfo "'ShooterGame.log' does not exist. Is VALORANT open?"] |})
  /\ Tauri.setupClient (engine := table_engine) quiet_log_world fresh =
       (Return false,
        {| api := set_apiInfo (lock_info good_lock) (api fresh);
           trace := trace fresh
                    ++ [FsExists lock_path; FsRead lock_path;
                        FsExists log_path; FsRead log_path;
                        Log LError "Failed to find the region and shard."] |}).
Proof.
  split.
  - apply (proj1 (setupClient_log_failure (engine := table_engine)
                    lock_only_world fresh good_lock eq_refl eq_refl eq_refl)).
    reflexivity.
  - apply (proj2 (setupClient_log_failure (engine := table_engine)
                    quiet_log_world fresh good_lock eq_refl eq_refl eq_refl)
             quiet_log); reflexivity.
Defined.

Lemma setupClient_request_failure_witness :
  Tauri.setupClient (engine := table_engine) (reply_world not_found) cached =
    (Throw (Error "Failed to fetch data."),
     {| api := api cached;
        trace := trace cached
                 ++ [Invoke (local_call (engine := table_engine) (lock_info good_lock)
                               "chat/v1/session" None);
                     Log LError "Client did not return a good response: 404 not found"] |}).
Proof.
  apply (setupClient_request_failure (engine := table_engine)
           (reply_world not_found) cached (lock_info good_lock) not_found);
    (reflexivity || discriminate).
Defined.

(** ** The standalone-process variant, in full *)

Section BunFacts.
Context {engine : Engine}.

(** How a request method of this variant ends once [fetch] has answered;
    [m] already holds the [NativeFetch] event. *)
Lemma Bun_remoteRequest_run w m path ri args :
  Bun.remoteRequest path ri args w m =
    let url := Bun.baseUrl (api m) args ++ "/" ++ path in
    let init := spread (Bun.remoteHeaders (api m)) ri in
    let m1 := {| api := api m; trace := trace m ++ [NativeFetch url init] |} in
    match Bun.fetch_ w url init with
    | None => (Throw (Rejected "fetch"), m1)
    | Some r =>
        let m2 := {| api := api m; trace := trace m ++ [NativeFetch url init; NativeJson] |} in
        match JSON_parse (Bun.body r) with
        | None => (Throw SyntaxError, m2)
        | Some v =>
            if Bun.ok r then (Return v, m2)
            else (Throw (Error "Failed to fetch data."),
                  {| api := api m;
                     trace := trace m
                              ++ [NativeFetch url init; NativeJson;
                                  Console LError
                                    [VString "Server did not return a good response.";
                                     VNumber (Int (Bun.status r)); v]] |})
        end
    end.
Proof.
  unfold Bun.remoteRequest, Bun.fetch, Bun.json, Bun.console_error. run_monad.
  cbn [api trace].
  destruct (Bun.fetch_ w _ _) as [r|]; [|reflexivity].
  destruct (Bun.ok r); cbn [negb api trace];
    destruct (JSON_parse (Bun.body r)); cbn [api trace];
    rewrite ?trace_two, <- ?app_assoc; reflexivity.
Qed.

(** X21.  The standalone variant reads the body of a failed response as JSON
    before it reports the failure.  So a response outside 200..299 whose
    body is JSON is logged, with its status and parsed body, and becomes
    the error "Failed to fetch data."; but one whose body is not JSON
    becomes the SyntaxError of the parse, and nothing is logged. *)
Theorem Bun_remoteRequest_failed_response w m path ri args r :
  Bun.fetch_ w (Bun.baseUrl (api m) args ++ "/" ++ path)
    (spread (Bun.remoteHeaders (api m)) ri) = Some r ->
  Bun.ok r = false ->
  (forall v,
     JSON_parse (Bun.body r) = Some v ->
     fst (Bun.remoteRequest path ri args w m) = Throw (Error "Failed to fetch data.")
     /\ In (Console LError [VString "Server did not return a good response.";
                            VNumber (Int (Bun.status r)); v])
          (trace (snd (Bun.remoteRequest path ri args w m))))
  /\ (JSON_parse (Bun.body r) = None ->
      fst (Bun.remoteRequest path ri args w m) = Throw SyntaxError
      /\ trace (snd (Bun.remoteRequest path ri args w m))
         = (trace m
            ++ [NativeFetch (Bun.baseUrl (api m) args ++ "/" ++ path)
                  (spread (Bun.remoteHeaders (api m)) ri);
                NativeJson])%list).
Proof.
  intros Hr Hok. rewrite Bun_remoteRequest_run. cbv zeta. rewrite Hr.
  split.
  - intros v Hv. rewrite Hv, Hok. cbn [fst snd trace]. split; [reflexivity|].
    apply in_or_app. right. cbn. auto.
  - intro Hv. rewrite Hv. now split.
Qed.

(** X22.  The two variants disagree on what a good response is.  A response
    with a status from 201 to 299 and a JSON body makes the desktop
    [remoteRequest] log it and throw, where the standalone one returns
    the parsed body. *)
Theorem variants_differ_on_2xx
    (w : Tauri.World) (w' : Bun.World) m path ri args (r : HttpResponse.t) v :
  Tauri.invoke_fetch w (remote_call (api m) path ri args) = Some r ->
  HttpResponse.success r = true ->
  Bun.fetch_ w' (Bun.baseUrl (api m) args ++ "/" ++ path)
    (spread (Bun.remoteHeaders (api m)) ri)
  = Some {| Bun.status := HttpResponse.status r; Bun.body := HttpResponse.body r |} ->
  200 < HttpResponse.status r <= 299 ->
  JSON_parse (HttpResponse.body r) = Some v ->
  fst (Tauri.remoteRequest path ri args w m) = Throw (Error "Failed to fetch data.")
  /\ fst (Bun.remoteRequest path ri args w' m) = Return v.
Proof.
  intros Hr Hok Hr' Hst Hv. split.
  - rewrite remoteRequest_run, Hr. unfold conclude. rewrite Hok. cbn [negb].
    assert (E : (HttpResponse.status r =? 200) = false) by (apply Z.eqb_neq; lia).
    now rewrite E.
  - rewrite Bun_remoteRequest_run. cbv zeta. rewrite Hr'. cbn [Bun.body].
    rewrite Hv. unfold Bun.ok. cbn [Bun.status].
    assert (E1 : (200 <=? HttpResponse.status r) = true) by (apply Z.leb_le; lia).
    assert (E2 : (HttpResponse.status r <=? 299) = true) by (apply Z.leb_le; lia).
    now rewrite E1, E2.
Qed.

(** X23.  On a status of exactly 200 the two variants agree: given the same
    body, both return its parse, or both throw the SyntaxError. *)
Theorem variants_agree_on_200
    (w : Tauri.World) (w' : Bun.World) m path ri args (r : HttpResponse.t) :
  Tauri.invoke_fetch w (remote_call (api m) path ri args) = Some r ->
  HttpResponse.success r = true ->
  HttpResponse.status r = 200 ->
  Bun.fetch_ w' (Bun.baseUrl (api m) args ++ "/" ++ path)
    (spread (Bun.remoteHeaders (api m)) ri)
  = Some {| Bun.status := 200; Bun.body := HttpResponse.body r |} ->
  fst (Tauri.remoteRequest path ri args w m) = fst (Bun.remoteRequest path ri args w' m)
  /\ api (snd (Tauri.remoteRequest path ri args w m))
     = api (snd (Bun.remoteRequest path ri args w' m)).
Proof.
  intros Hr Hok Hst Hr'.
  rewrite remoteRequest_run, Hr, Bun_remoteRequest_run. cbv zeta. rewrite Hr'.
  unfold conclude. rewrite Hok, Hst. cbn [negb Z.eqb Pos.eqb Bun.body].
  destruct (JSON_parse (HttpResponse.body r)); now split.
Qed.

(** X24.  The request that the desktop variant hands to its shell is the
    [init] object of the standalone variant, flattened: same URL, the
    [headers] of [init], its method or GET, its body.  This holds for
    [localRequest] (given ApiInfo) and for [remoteRequest], whatever the
    options. *)
Theorem variants_send_same_request
    (w : Tauri.World) (w' : Bun.World) m path ri args :
  (exists req url init l l',
     trace (snd (Tauri.remoteRequest path ri args w m))
     = (trace m ++ Invoke req :: l)%list
     /\ trace (snd (Bun.remoteRequest path ri args w' m))
        = (trace m ++ NativeFetch url init :: l')%list
     /\ Request.url req = url
     /\ RequestOptions.headers init = Some (Request.headers req)
     /\ Request.method req = or_default "GET" (RequestOptions.method init)
     /\ Request.body req = RequestOptions.body init)
  /\ (forall ai,
        apiInfo (api m) = Some ai ->
        exists req url init l l',
          trace (snd (Tauri.localRequest path ri w m))
          = (trace m ++ Invoke req :: l)%list
          /\ trace (snd (Bun.localRequest path ri w' m))
             = (trace m ++ NativeFetch url init :: l')%list
          /\ Request.url req = url
          /\ RequestOptions.headers init = Some (Request.headers req)
          /\ Request.method req = or_default "GET" (RequestOptions.method init)
          /\ Request.body req = RequestOptions.body init).
Proof.
  assert (Hflat : forall d url,
            let init := spread d ri in
            let req := Tauri.fetch_request url (Some init) in
            Request.url req = url
            /\ RequestOptions.headers init = Some (Request.headers req)
            /\ Request.method req = or_default "GET" (RequestOptions.method init)
            /\ Request.body req = RequestOptions.body init).
  { intros d url. unfold spread, Tauri.fetch_request.
    destruct ri as [o|]; cbn; [|now repeat split].
    destruct (RequestOptions.headers o), (RequestOptions.method o); now repeat split. }
  assert (Hopen : forall who reply m0 r,
            exists l, trace (snd (conclude who reply (invoked m0 r)))
                      = (trace m0 ++ Invoke r :: l)%list).
  { intros who reply m0 r. unfold conclude, invoked.
    destruct reply as [x|]; [|now exists []].
    destruct (HttpResponse.success x); cbn [negb]; [|now exists []].
    destruct (HttpResponse.status x =? 200); cbn [negb].
    - destruct (JSON_parse _); now exists [].
    - eexists. cbn [snd trace]. now rewrite trace_two. }
  split.
  - destruct (Hopen "Server" (Tauri.invoke_fetch w (remote_call (api m) path ri args))
                m (remote_call (api m) path ri args)) as [l Hl].
    exists (remote_call (api m) path ri args),
      (Bun.baseUrl (api m) args ++ "/" ++ path),
      (spread (Bun.remoteHeaders (api m)) ri), l.
    assert (exists l', trace (snd (Bun.remoteRequest path ri args w' m))
                       = (trace m
                          ++ NativeFetch (Bun.baseUrl (api m) args ++ "/" ++ path)
                               (spread (Bun.remoteHeaders (api m)) ri) :: l')%list)
      as [l' Hl'].
    { rewrite Bun_remoteRequest_run. cbv zeta.
      destruct (Bun.fetch_ w' _ _) as [r|]; [|now exists []].
      destruct (JSON_parse (Bun.body r)); [destruct (Bun.ok r)|];
        eexists; reflexivity. }
    exists l'. split; [now rewrite remoteRequest_run|]. split; [exact Hl'|].
    apply (Hflat (Tauri.remoteHeaders (api m))).
  - intros ai Hai.
    destruct (Hopen "Client" (Tauri.invoke_fetch w (local_call ai path ri))
                m (local_call ai path ri)) as [l Hl].
    exists (local_call ai path ri), (Bun.localUrl ai path),
      (spread (Bun.basicAuth ai) ri), l.
    assert (exists l', trace (snd (Bun.localRequest path ri w' m))
                       = (trace m
                          ++ NativeFetch (Bun.localUrl ai path)
                               (spread (Bun.basicAuth ai) ri) :: l')%list)
      as [l' Hl'].
    { unfold Bun.localRequest, Bun.fetch, Bun.json, Bun.console_error. run_monad.
      rewrite Hai. cbn [api trace].
      destruct (Bun.fetch_ w' _ _) as [r|]; [|now exists []].
      destruct (Bun.ok r); cbn [negb api trace];
        destruct (JSON_parse (Bun.body r)); cbn [snd api trace];
        rewrite ?trace_two, <- ?app_assoc; eexists; reflexivity. }
    exists l'. split; [now rewrite (localRequest_run w m path ri ai Hai)|].
    split; [exact Hl'|].
    apply (Hflat (Tauri.basicAuth ai)).
Qed.

End BunFacts.

Lemma Bun_remoteRequest_failed_response_witness :
  (fst (Bun.remoteRequest (engine := table_engine) "core-game/v1/matches/g-1" None None
          (bun_reply bun_not_found) cached)
   = Throw (Error "Failed to fetch data.")
   /\ In (Console LError [VString "Server did not return a good response.";
                          VNumber (Int 404); chat_value])
        (trace (snd (Bun.remoteRequest (engine := table_engine)
                       "core-game/v1/matches/g-1" None None
                       (bun_reply bun_not_found) cached))))
  /\ fst (Bun.remoteRequest (engine := table_engine) "core-game/v1/matches/g-1" None None
            (bun_reply bad_gateway) cached)
     = Throw SyntaxError
  /\ trace (snd (Bun.remoteRequest (engine := table_engine)
                   "core-game/v1/matches/g-1" None None (bun_reply bad_gateway) cached))
     = (trace cached
        ++ [NativeFetch (Bun.baseUrl cached_api None ++ "/" ++ "core-game/v1/matches/g-1")
              (spread (Bun.remoteHeaders (engine := table_engine) cached_api) None);
            NativeJson])%list.
Proof.
  split.
  - apply (proj1 (Bun_remoteRequest_failed_response (engine := table_engine)
                    (bun_reply bun_not_found) cached "core-game/v1/matches/g-1"
                    None None bun_not_found eq_refl eq_refl) chat_value).
    reflexivity.
  - apply (proj2 (Bun_remoteRequest_failed_response (engine := table_engine)
                    (bun_reply bad_gateway) cached "core-game/v1/matches/g-1"
                    None None bad_gateway eq_refl eq_refl)).
    reflexivity.
Defined.

Lemma variants_differ_on_2xx_witness :
  fst (Tauri.remoteRequest (engine := table_engine) "core-game/v1/matches/g-1" None None
         (reply_world created) cached)
  = Throw (Error "Failed to fetch data.")
  /\ fst (Bun.remoteRequest (engine := table_engine) "core-game/v1/matches/g-1" None None
            (bun_reply {| Bun.status := 201; Bun.body := chat_body |}) cached)
     = Return chat_value.
Proof.
  apply (variants_differ_on_2xx (engine := table_engine)
           (reply_world created)
           (bun_reply {| Bun.status := 201; Bun.body := chat_body |})
           cached "core-game/v1/matches/g-1" None None created chat_value);
    try reflexivity.
  cbn. lia.
Defined.

Lemma variants_agree_on_200_witness :
  fst (Tauri.remoteRequest (engine := table_engine) "core-game/v1/matches/g-1" None None
         (reply_world (ok_response chat_body)) cached)
  = fst (Bun.remoteRequest (engine := table_engine) "core-game/v1/matches/g-1" None None
           (bun_reply {| Bun.status := 200; Bun.body := chat_body |}) cached)
  /\ api (snd (Tauri.remoteRequest (engine := table_engine) "core-game/v1/matches/g-1"
                 None None (reply_world (ok_response chat_body)) cached))
     = api (snd (Bun.remoteRequest (engine := table_engine) "core-game/v1/matches/g-1"
                   None None
                   (bun_reply {| Bun.status := 200; Bun.body := chat_body |}) cached)).
Proof.
  apply (variants_agree_on_200 (engine := table_engine)
           (reply_world (ok_response chat_body))
           (bun_reply {| Bun.status := 200; Bun.body := chat_body |})
           cached "core-game/v1/matches/g-1" None None (ok_response chat_body));
    reflexivity.
Defined.

Lemma variants_send_same_request_witness :
  exists req url init l l',
    trace (snd (Tauri.localRequest (engine := table_engine) "help" (Some accept_json)
                  (reply_world not_found) cached))
    = (trace cached ++ Invoke req :: l)%list
    /\ trace (snd (Bun.localRequest (engine := table_engine) "help" (Some accept_json)
                     (bun_reply bun_not_found) cached))
       = (trace cached ++ NativeFetch url init :: l')%list
    /\ Request.url req = url
    /\ RequestOptions.headers init = Some (Request.headers req)
    /\ Request.method req = or_default "GET" (RequestOptions.method init)
    /\ Request.body req = RequestOptions.body init.
Proof.
  apply (proj2 (variants_send_same_request (engine := table_engine)
                  (reply_world not_found) (bun_reply bun_not_found) cached
                  "help" (Some accept_json) None)
           (lock_info good_lock)).
  reflexivity.
Defined.
